(** * GStreamer helpers of microdrop_ext_libs: capability normalisation,
      pipeline assembly and the Cairo overlay transform.

    The development embeds three source files:
    - [ext_libs/pygst_utils/video_source.py]        (module [VideoSource]),
    - [build/lib/pygst_utils/video_pipeline/__init__.py] (module [VideoPipeline]),
    - [build/lib/pygst_utils/elements/cairo_draw.py]     (module [CairoDraw]).

    Python exceptions are values of [exn]; a call that may raise returns a
    [result].  Objects of the GStreamer, pandas and Cairo bindings are data:
    a data frame is a list of column labels and a list of rows, a pipeline is
    a list of elements and a list of links, a Cairo context is the list of
    calls issued on it.  Floats are binary64 floats, and [/] on numbers is
    Python 3's true division.  The operations of pandas are those of the
    releases since 0.23, which the code runs on ([.ix] is gone from it). *)

From Stdlib Require Import ZArith PrimFloat SpecFloat FloatOps.
From stdpp Require Import base list strings sorting.

Set Warnings "-inexact-float".

Local Open Scope string_scope.
Local Open Scope Z_scope.
Local Open Scope list_scope.

(** ** Exceptions and fallible computations *)

Inductive exn : Type :=
| TypeError
| AttributeError
| KeyError
| IndexError
| ValueError
| OSError
| LinkError
| DeviceNotFound
| OverflowError
| CairoError.

Inductive result (A : Type) : Type :=
| Ok (a : A)
| Raise (e : exn).

Arguments Ok {A} a.
Arguments Raise {A} e.

#[global] Instance result_ret : MRet result := fun A a => Ok a.
#[global] Instance result_bind : MBind result :=
  fun A B f m => match m with Ok a => f a | Raise e => Raise e end.
#[global] Instance result_fmap : FMap result :=
  fun A B f m => match m with Ok a => Ok (f a) | Raise e => Raise e end.

Definition is_Ok {A} (m : result A) : bool :=
  match m with Ok _ => true | Raise _ => false end.

(** ** Values held by capability structures and data frames *)

(** [Gst.Fraction]: numerator and denominator as the binding exposes them. *)
Record Fraction : Type := mkFraction { num : Z; denom : Z }.

#[warnings="-register-all"]
Inductive value : Type :=
| VNaN                                    (* pandas' filler for a missing cell *)
| VInt (z : Z)
| VFloat (f : float)
| VStr (s : string)
| VFourcc (fourcc : string)               (* Gst.Fourcc *)
| VIntRange (low high : Z)                (* Gst.IntRange *)
| VFraction (fps : Fraction)              (* Gst.Fraction *)
| VFractionRange (low high : Fraction)    (* Gst.FractionRange *)
| VList (items : list value).             (* a list of GStreamer values *)

(** The float nearest to [n * 2^e] (ties to even), infinite when that is
    beyond the floats. *)
Definition nearest_float (n e : Z) : float :=
  SF2Prim (binary_normalize prec emax n e false).

(** Conversion of an integer column cell to float64 (round to nearest). *)
Definition float_of_Z (z : Z) : float := nearest_float z 0.

(** [float(n)] and [n / 4] on a Python integer [n], as [n * 2^e]: the
    result is rounded to nearest, and [OverflowError] is raised when it is
    beyond the floats. *)
Definition py_float (n e : Z) : result float :=
  let f := nearest_float n e in
  if PrimFloat.is_infinity f then Raise OverflowError else Ok f.

(** ** Data frames *)

Record DataFrame : Type := mkDataFrame {
  columns : list string;
  rows : list (list value)
}.

(** [pd.DataFrame()] *)
Definition empty_frame : DataFrame := mkDataFrame [] [].

(** The operations of pandas that [video_source.py] uses.  A label is looked
    up at its first occurrence; the tables of [get_allowed_capabilities] are
    built from dicts and carry each label once. *)
Module Pandas.

(** Position of the first column carrying [label]. *)
Fixpoint col_index (label : string) (cols : list string) : option nat :=
  match cols with
  | [] => None
  | c :: cs => if decide (c = label) then Some 0%nat
               else S <$> col_index label cs
  end.

Definition cell (i : nat) (row : list value) : value := nth i row VNaN.

(** [df[label]] *)
Definition get_column (label : string) (df : DataFrame) : result (list value) :=
  match col_index label (columns df) with
  | Some i => Ok (map (cell i) (rows df))
  | None => Raise KeyError
  end.

Definition keep_label (labels : list string) (c : string) : bool :=
  bool_decide (c ∉ labels).

(** Cells of a row whose column label is not among [labels]. *)
Fixpoint drop_cells (labels cols : list string) (row : list value) : list value :=
  match cols, row with
  | c :: cs, v :: vs =>
      if keep_label labels c then v :: drop_cells labels cs vs
      else drop_cells labels cs vs
  | _, _ => []
  end.

(** [df.drop(labels, axis=1)]: every label must be present. *)
Definition drop_labels (labels : list string) (df : DataFrame) : result DataFrame :=
  if forallb (fun l => bool_decide (l ∈ columns df)) labels
  then Ok (mkDataFrame (List.filter (keep_label labels) (columns df))
                       (map (drop_cells labels (columns df)) (rows df)))
  else Raise KeyError.

(** [df[label] = series]: replaces the column when the label exists,
    appends it as the last column otherwise.  The series always comes from
    a frame with the same rows, so no alignment is involved. *)
Definition setitem (label : string) (series : list value) (df : DataFrame)
  : DataFrame :=
  match col_index label (columns df) with
  | Some i => mkDataFrame (columns df)
                          (zip_with (fun row v => <[i:=v]> row) (rows df) series)
  | None => mkDataFrame (columns df ++ [label])
                        (zip_with (fun row v => row ++ [v]) (rows df) series)
  end.

Definition insert_at {A} (loc : nat) (x : A) (l : list A) : list A :=
  take loc l ++ x :: drop loc l.

(** [df.insert(loc, label, series)]: refuses an existing label and a
    position past the last column. *)
Definition insert (loc : nat) (label : string) (series : list value)
    (df : DataFrame) : result DataFrame :=
  if bool_decide (label ∈ columns df) then Raise ValueError
  else if bool_decide (length (columns df) < loc)%nat then Raise IndexError
  else Ok (mkDataFrame (insert_at loc label (columns df))
                       (zip_with (fun row v => insert_at loc v row) (rows df) series)).

(** [dict(pairs)]: a later pair overrides the value of an earlier key and
    keeps the key's first position. *)
Fixpoint dict_set (k : string) (v : value) (d : list (string * value))
  : list (string * value) :=
  match d with
  | [] => [(k, v)]
  | (k', v') :: d' => if decide (k' = k) then (k, v) :: d'
                      else (k', v') :: dict_set k v d'
  end.

Definition dict (pairs : list (string * value)) : list (string * value) :=
  foldl (fun d kv => dict_set kv.1 kv.2 d) [] pairs.

Fixpoint dict_get (k : string) (d : list (string * value)) : option value :=
  match d with
  | [] => None
  | (k', v) :: d' => if decide (k' = k) then Some v else dict_get k d'
  end.

(** Labels in order of first appearance: [remove_dups] keeps the last
    occurrence of a label, so the list is reversed around it. *)
Definition union_labels (ls : list (list string)) : list string :=
  reverse (remove_dups (reverse (concat ls))).

(** Type inference on a column of Python objects: a column of numbers in
    which an integer stands beside a float or a missing value becomes a
    float64 column; every other column keeps its objects.  The integers
    are those of GStreamer caps, C [int]s. *)
Definition is_number (v : value) : bool :=
  match v with VNaN | VInt _ | VFloat _ => true | _ => false end.

Definition is_int (v : value) : bool :=
  match v with VInt _ => true | _ => false end.

Definition is_float64 (cells : list value) : bool :=
  forallb is_number cells && negb (forallb is_int cells).

Definition to_float64 (v : value) : value :=
  match v with VInt z => VFloat (float_of_Z z) | _ => v end.

(** [pd.DataFrame(list_of_dicts)]: the columns are the keys in order of
    first appearance; a key missing from a dict gives a NaN cell, and the
    type of each column is inferred. *)
Definition from_records (records : list (list (string * value))) : DataFrame :=
  let cols := union_labels (map (fun d => d.*1) records) in
  let cell_of c d := default VNaN (dict_get c d) in
  let float64 c := is_float64 (map (cell_of c) records) in
  mkDataFrame cols
    (map (fun d => map (fun c => if float64 c then to_float64 (cell_of c d)
                                 else cell_of c d) cols) records).

(** [series.label]: attribute access on a Series looks [label] up in its
    index.  The Series that [DataFrame.apply] returns for a function giving
    lists is indexed like the rows of the frame, which
    [pd.DataFrame(list_of_dicts)] numbers from 0, so a column label is not
    found. *)
Definition series_attr {A} (label : string) (series : list A)
  : result (list value) :=
  Raise AttributeError.

(** Cells of [row] (laid out along [cols]) laid out along [new_cols]. *)
Definition reindex_row (cols new_cols : list string) (row : list value)
  : list value :=
  map (fun c => match col_index c cols with
                | Some i => cell i row
                | None => VNaN
                end) new_cols.

(** [pd.concat(frames).reset_index(drop=True)] *)
Definition concat_frames (frames : list DataFrame) : DataFrame :=
  let cols := union_labels (map columns frames) in
  mkDataFrame cols
    (flat_map (fun df => map (reindex_row (columns df) cols) (rows df)) frames).

(** [a / b] on two integer cells: float64 true division. *)
Definition truediv (a b : value) : result value :=
  match a, b with
  | VInt n, VInt d => Ok (VFloat (PrimFloat.div (float_of_Z n) (float_of_Z d)))
  | _, _ => Raise TypeError
  end.

End Pandas.

(** ** video_source.py *)

Module VideoSource.

(** A [Gst.Structure] of a caps object: its media-type name and its
    fields in the order [keys()] lists them. *)
Record Structure : Type := mkStructure {
  struct_name : string;
  fields : list (string * value)
}.

(** Outcome of linking the source element of a device to a video sink. *)
Inductive link_outcome : Type :=
| LinkFails                                  (* [Gst.LinkError] *)
| Linked (allowed_caps : list Structure).    (* [source_pad.get_allowed_caps()] *)

(** What the module reads from the machine it runs on. *)
Record Host : Type := mkHost {
  platform_system : string;                   (* [platform.system()] *)
  listdir_v4l_by_id : result (list string);   (* [path('/dev/v4l/by-id').listdir()] *)
  probe_get_values_name : result (list string);
  link_source : string -> link_outcome
}.

Definition get_video_source_names (host : Host) : result (list string) :=
  if decide (platform_system host = "Linux") then
    match listdir_v4l_by_id host with
    | Ok devices => Ok devices
    | Raise OSError => Raise DeviceNotFound
    | Raise e => Raise e
    end
  else
    let devices := match probe_get_values_name host with
                   | Ok devices => devices
                   | Raise _ => []
                   end in
    if bool_decide (devices = []) then Raise DeviceNotFound
    else Ok devices.

Definition caps_record (c : Structure) : list (string * value) :=
  Pandas.dict (fields c ++ [("name", VStr (struct_name c))]).

(** A failed link is logged at debug level and leaves [allowed_caps] empty;
    the log is not part of the model. *)
Definition get_allowed_capabilities (host : Host) (device_name : string)
  : DataFrame :=
  let allowed_caps :=
    match link_source host device_name with
    | Linked caps => map caps_record caps
    | LinkFails => []
    end in
  Pandas.from_records allowed_caps.

Definition range_high (v : value) : value :=
  match v with
  | VIntRange _ high => VInt high
  | _ => v
  end.

(** [dimensions_obj] is the (width, height) pair of one row, and so is the
    list returned (the docstring announces a [pandas.Series]). *)
Definition extract_dimensions (dimensions_obj : value * value)
  : value * value :=
  (range_high dimensions_obj.1, range_high dimensions_obj.2).

Definition extract_format (format_obj : value) : result value :=
  match format_obj with
  | VFourcc fourcc => Ok (VStr fourcc)
  | _ => Raise AttributeError
  end.

(** [(fps.num, fps.denom)] *)
Definition fps_tuple (fps : value) : result (Z * Z) :=
  match fps with
  | VFraction f => Ok (num f, denom f)
  | _ => Raise AttributeError
  end.

(** Python's order on pairs of integers. *)
Definition tuple_le (a b : Z * Z) : Prop :=
  a.1 < b.1 \/ (a.1 = b.1 /\ a.2 <= b.2).

#[global] Instance tuple_le_dec : RelDecision tuple_le.
Proof. intros a b. unfold tuple_le. apply _. Defined.

(** [sorted(set(xs))] *)
Definition sorted_set (xs : list (Z * Z)) : list (Z * Z) :=
  merge_sort tuple_le (remove_dups xs).

(** Iterating over anything but a list or a string raises the [TypeError]
    that the [except] clause handles; a character of a string has no
    [num]. *)
Definition extract_fps (framerate_obj : value) : result (list (Z * Z)) :=
  framerates ←
    match framerate_obj with
    | VList items => mapM fps_tuple items
    | VStr s => if decide (s = "") then Ok [] else Raise AttributeError
    | VFractionRange low high =>
        Ok [(num low, denom low); (num high, denom high)]
    | _ => fps ← fps_tuple framerate_obj; Ok [fps]
    end;
  Ok (sorted_set framerates).

(** [mode_i.tolist() + list(fps_j) for fps_j in framerates_i] *)
Definition frame_i (mode_i : list value) (framerates_i : list (Z * Z))
  : list (list value) :=
  map (fun fps_j => mode_i ++ [VInt fps_j.1; VInt fps_j.2]) framerates_i.

(** [df_dimensions] is what [apply(..., axis=1)] returns for a function
    giving lists: the Series of these lists, one per row (an empty Series
    for a frame without rows). *)
Definition expand_allowed_capabilities (df_allowed_caps : DataFrame)
  : result DataFrame :=
  df_modes ← Pandas.drop_labels ["framerate"; "width"; "height"; "format"]
                                df_allowed_caps;
  formats ← Pandas.get_column "format" df_allowed_caps;
  fourcc ← mapM extract_format formats;
  let df_modes := Pandas.setitem "fourcc" fourcc df_modes in
  widths ← Pandas.get_column "width" df_allowed_caps;
  heights ← Pandas.get_column "height" df_allowed_caps;
  let df_dimensions := map extract_dimensions (zip widths heights) in
  width ← Pandas.series_attr "width" df_dimensions;
  df_modes ← Pandas.insert 0 "width" width df_modes;
  height ← Pandas.series_attr "height" df_dimensions;
  df_modes ← Pandas.insert 1 "height" height df_modes;
  framerates ← Pandas.get_column "framerate" df_allowed_caps;
  frame_rates ← mapM extract_fps framerates;
  let frames := concat (zip_with frame_i (rows df_modes) frame_rates) in
  let df_modes :=
    mkDataFrame (columns df_modes ++ ["framerate_num"; "framerate_denom"])
                frames in
  nums ← Pandas.get_column "framerate_num" df_modes;
  denoms ← Pandas.get_column "framerate_denom" df_modes;
  framerate ← mapM (fun nd => Pandas.truediv nd.1 nd.2) (zip nums denoms);
  Ok (Pandas.setitem "framerate" framerate df_modes).

(** The loop of [get_source_capabilities] over the device names. *)
Fixpoint source_frames (host : Host) (video_source_names : list string)
  : result (list DataFrame) :=
  match video_source_names with
  | [] => Ok []
  | device_name_i :: names =>
      let df_allowed_caps_i := get_allowed_capabilities host device_name_i in
      if bool_decide (length (rows df_allowed_caps_i) = 0%nat) then
        source_frames host names
      else
        df_source_caps_i ← expand_allowed_capabilities df_allowed_caps_i;
        df_source_caps_i ←
          Pandas.insert 0 "device_name"
            (replicate (length (rows df_source_caps_i)) (VStr device_name_i))
            df_source_caps_i;
        frames ← source_frames host names;
        Ok (df_source_caps_i :: frames)
  end.

Definition get_source_capabilities (host : Host)
    (video_source_names : option (list string)) : result DataFrame :=
  video_source_names ←
    match video_source_names with
    | None => get_video_source_names host
    | Some names => Ok names
    end;
  frames ← source_frames host video_source_names;
  if bool_decide (frames = []) then Ok empty_frame
  else Ok (Pandas.concat_frames frames).

End VideoSource.

(** ** Labels and cells of a capability table *)

Section RowWise.

Import VideoSource.

Definition caps_labels : list string :=
  ["framerate"; "width"; "height"; "format"].

(** The cell of [row] under the column [label]. *)
Definition lookup_cell (cols : list string) (label : string)
    (row : list value) : value :=
  match Pandas.col_index label cols with
  | Some i => Pandas.cell i row
  | None => VNaN
  end.

(** [df.shape[0]] is not zero. *)
Definition has_rows (df : DataFrame) : bool :=
  negb (bool_decide (length (rows df) = 0%nat)).

End RowWise.

(** ** Drawing on the buffer of a frame *)

Module Drawing.

(** Methods of a [cairo.Context] that the elements call. *)
Inductive cairo_op : Type :=
| set_source_rgba (r g b a : float)
| move_to (x y : float)
| arc (xc yc radius angle1 angle2 : float)
| close_path
| fill
| set_font_size (size : float)
| text_extents (txt : string)
| text_path (txt : string).

(** The behaviour of the Cairo binding on one buffer. *)
Record Cairo : Type := mkCairo {
  (** [cairo.ImageSurface.create_for_data(buf, FORMAT_ARGB32, width,
      height, stride)] followed by [cairo.Context(surface)] *)
  create_context : Z -> Z -> Z -> result unit;
  (** whether a call raises, given the calls issued before it *)
  refuses : list cairo_op -> cairo_op -> option exn;
  (** [extents[2]] and [extents[3]] of [ctx.text_extents(txt)] *)
  extents_of : string -> float * float
}.

(** What a call of the transform leaves behind: the lines printed and the
    calls issued on the context of the buffer. *)
Record World : Type := mkWorld {
  stdout : list string;
  issued : list cairo_op
}.

(** A computation that prints, draws, and returns or raises. *)
Definition M (A : Type) : Type := World -> result A * World.

#[global] Instance M_ret : MRet M := fun A a w => (Ok a, w).
#[global] Instance M_bind : MBind M :=
  fun A B f m w =>
    match m w with
    | (Ok a, w') => f a w'
    | (Raise e, w') => (Raise e, w')
    end.

Definition lift {A} (r : result A) : M A := fun w => (r, w).

(** [try: body / except: handler] with a bare [except]. *)
Definition try_except {A} (body : M A) (handler : exn -> M A) : M A :=
  fun w =>
    match body w with
    | (Ok a, w') => (Ok a, w')
    | (Raise e, w') => handler e w'
    end.

Definition print (line : string) : M unit :=
  fun w => (Ok tt, mkWorld (stdout w ++ [line]) (issued w)).

(** [traceback.print_exc()] *)
Definition print_exc (e : exn) : M unit := print "Traceback".

(** A method call on the context. *)
Definition ctx_call (c : Cairo) (op : cairo_op) : M unit :=
  fun w =>
    match refuses c (issued w) op with
    | Some e => (Raise e, w)
    | None => (Ok tt, mkWorld (stdout w) (issued w ++ [op]))
    end.

End Drawing.

(** An instance of the [DrawQueue] class.  The class lives in
    [elements/draw_queue.py], which is not among the sources, so an instance
    is what the two modules below use of it: its [render(ctx)] method and
    the truth value Python gives the object. *)
Record DrawQueue : Type := mkDrawQueue {
  render : Drawing.Cairo -> Drawing.M unit;
  dq_bool : bool
}.

(** ** elements/cairo_draw.py *)

Module CairoDraw.

Import Drawing.

Record Buffer : Type := mkBuffer {
  get_caps : result (list (list (string * value)));
  cairo : Cairo
}.

(** [caps[0][key]] *)
Definition caps_item (caps : list (list (string * value))) (key : string)
  : result value :=
  match caps with
  | [] => Raise IndexError
  | c :: _ => match Pandas.dict_get key c with
              | Some v => Ok v
              | None => Raise KeyError
              end
  end.

Definition as_int (v : value) : result Z :=
  match v with VInt z => Ok z | _ => Raise TypeError end.

(** The body of the first [try] of the draw functions; [with_framerate]
    tells whether the function also reads [caps[0]['framerate']]. *)
Definition acquire (with_framerate : bool) (buf : Buffer) : result (Z * Z) :=
  caps ← get_caps buf;
  width ← caps_item caps "width";
  height ← caps_item caps "height";
  _ ← (if with_framerate then caps_item caps "framerate" else Ok VNaN);
  w ← as_int width;
  h ← as_int height;
  _ ← create_context (cairo buf) w h (4 * w);
  Ok (w, h).

Definition pi : float := 0x1.921fb54442d18p+1%float.

(** The body of the second [try] of [draw_on] and [other_draw_on]; they
    differ in the blue component of the disc.  [width/4], [3*height/4] and
    [float(min(width, height))] raise [OverflowError] on integers beyond the
    floats. *)
Definition hello_world (blue : float) (buf : Buffer) (width height : Z)
  : M unit :=
  let c := cairo buf in
  center_x ← lift (py_float width (-2));
  center_y ← lift (py_float (3 * height) (-2));
  side ← lift (py_float (Z.min width height) 0);
  let radius := (side * 0.25)%float in
  _ ← ctx_call c (set_source_rgba 0 0 blue 0.7);
  _ ← ctx_call c (move_to center_x center_y);
  _ ← ctx_call c (arc center_x center_y radius 0 (2 * pi));
  _ ← ctx_call c close_path;
  _ ← ctx_call c fill;
  _ ← ctx_call c (set_source_rgba 1 1 1 1);
  _ ← ctx_call c (set_font_size (0.3 * radius));
  let txt := "Hello World" in
  _ ← ctx_call c (text_extents txt);
  let extents := extents_of c txt in
  _ ← ctx_call c (move_to (center_x - extents.1 / 2) (center_y + extents.2 / 2));
  _ ← ctx_call c (text_path txt);
  ctx_call c fill.

Definition guarded_draw (blue : float) (buf : Buffer) : M unit :=
  acquired ← try_except
    (size ← lift (acquire true buf); mret (Some size))
    (fun e => _ ← print "Failed to create cairo surface for buffer";
              _ ← print_exc e;
              mret None);
  match acquired with
  | None => mret tt
  | Some (width, height) =>
      try_except (hello_world blue buf width height)
                 (fun e => _ ← print "Failed cairo render"; print_exc e)
  end.

Definition other_draw_on : Buffer -> M unit := guarded_draw 1.

(** The function an element has as [self.draw_on]. *)
Inductive draw_function : Type :=
| OtherDrawOn         (* [other_draw_on], the default [draw_func] *)
| MethodDrawOn        (* [CairoDrawBase.draw_on], for a falsy [draw_func] *)
| RenderDrawQueue.    (* [self.render_draw_queue] of a [CairoDrawQueue] *)

Record Element : Type := mkElement {
  name : string;
  draw_func : draw_function;
  draw_queue : option DrawQueue
}.

(** [CairoDrawBase(name)] and [CairoDrawBase(name, draw_func=None)] *)
Definition CairoDrawBase (name : string) (default_draw_func : bool) : Element :=
  mkElement name (if default_draw_func then OtherDrawOn else MethodDrawOn) None.

(** [CairoDrawQueue(name)] *)
Definition CairoDrawQueue (name : string) : Element :=
  mkElement name RenderDrawQueue None.

(** [do_set_property] for the ['draw-queue'] property: the pickled
    instance is loaded back. *)
Definition do_set_property (self : Element) (val : DrawQueue) : Element :=
  mkElement (name self) (draw_func self) (Some val).

Definition draw_on : Buffer -> M unit := guarded_draw 0.

Definition render_draw_queue (self : Element) (buf : Buffer) : M unit :=
  match draw_queue self with
  | Some dq =>
      if dq_bool dq then
        acquired ← try_except
          (size ← lift (acquire false buf); mret (Some size))
          (fun e => _ ← print "Failed to create cairo surface for buffer";
                    _ ← print_exc e;
                    mret None);
        match acquired with
        | None => mret tt
        | Some _ => render dq (cairo buf)
        end
      else mret tt
  | None => mret tt
  end.

Inductive FlowReturn : Type := FLOW_OK.

Definition do_transform_ip (self : Element) (buffer : Buffer) : M FlowReturn :=
  _ ← match draw_func self with
      | OtherDrawOn => other_draw_on buffer
      | MethodDrawOn => draw_on buffer
      | RenderDrawQueue => render_draw_queue self buffer
      end;
  mret FLOW_OK.

End CairoDraw.

(** ** video_pipeline/__init__.py *)

Module VideoPipeline.

Inductive property : Type :=
| PInt (z : Z)
| PStr (s : string)
| PPickle (dq : DrawQueue)       (* [pickle.dumps(draw_queue)] *)
| PCallback (handle : string).   (* a Python callable *)

Record Element : Type := mkElement {
  factory : string;
  name : string;
  properties : list (string * property)
}.

(** [Gst.element_factory_make(factory, name)] *)
Definition element_factory_make (factory name : string) : Element :=
  mkElement factory name [].

Definition set_property (key : string) (val : property) (e : Element)
  : Element :=
  mkElement (factory e) (name e) (properties e ++ [(key, val)]).

(** A pipeline: the elements added to it and the links made between
    them, by element name, both in the order the calls were made. *)
Record Pipeline : Type := mkPipeline {
  pipeline_name : string;
  elements : list Element;
  links : list (string * string)
}.

(** [pipeline.add(e1, e2, ...)] *)
Definition add (es : list Element) (p : Pipeline) : Pipeline :=
  mkPipeline (pipeline_name p) (elements p ++ es) (links p).

(** Links from each name to the next one. *)
Fixpoint chain (names : list string) : list (string * string) :=
  match names with
  | a :: (b :: _) as rest => (a, b) :: chain rest
  | _ => []
  end.

(** [Gst.element_link_many(e1, e2, ...)] *)
Definition element_link_many (es : list Element) (p : Pipeline) : Pipeline :=
  mkPipeline (pipeline_name p) (elements p) (links p ++ chain (map name es)).

(** Truth values of the optional arguments. *)
Definition truthy_int (x : option Z) : bool :=
  match x with Some z => negb (z =? 0) | None => false end.
Definition truthy_str (x : option string) : bool :=
  match x with Some s => negb (bool_decide (s = "")) | None => false end.
Definition truthy_queue (x : option DrawQueue) : bool :=
  match x with Some q => dq_bool q | None => false end.
Definition truthy_callback (x : option string) : bool :=
  match x with Some _ => true | None => false end.

(** [platform_system] is the value of [platform.system()].  The elements
    [grab_frame], [WarpBin] and [CairoDrawQueue] are built by their classes
    and carry the name the call gives them; the state change of the source
    element is not part of the model.  In the capture block both arguments
    are truthy, so [default] only unwraps them. *)
Definition get_pipeline (platform_system : string) (video_source : Element)
    (bitrate : option Z) (output_path : option string)
    (draw_queue : option DrawQueue) (with_scale with_warp : bool)
    (on_frame_grabbed : option string) : Pipeline :=
  let pipeline := mkPipeline "pipeline" [] [] in
  let pipeline := add [video_source] pipeline in
  let video_rate := element_factory_make "videorate" "video_rate" in
  let video_tee := element_factory_make "tee" "video_tee" in
  let pipeline := add [video_rate; video_tee] pipeline in
  let pipeline :=
    element_link_many [video_source; video_rate; video_tee] pipeline in
  let display_queue := element_factory_make "queue" "display_queue" in
  let video_sink := element_factory_make "autovideosink" "video_sink" in
  let pipeline := add [display_queue; video_sink] pipeline in
  let pipeline := element_link_many [video_tee; display_queue] pipeline in
  let display_pre_sink := display_queue in
  let '(pipeline, display_pre_sink) :=
    match on_frame_grabbed with
    | Some callback =>
        let grab_frame_color_in :=
          element_factory_make "ffmpegcolorspace" "grab_frame_color_in" in
        let grab_frame_ :=
          set_property "on_frame_grabbed" (PCallback callback)
            (mkElement "grab_frame" "grab_frame" []) in
        let grab_frame_color_out :=
          element_factory_make "ffmpegcolorspace" "grab_frame_color_out" in
        let pipeline :=
          add [grab_frame_color_in; grab_frame_; grab_frame_color_out]
              pipeline in
        let pipeline :=
          element_link_many [display_pre_sink; grab_frame_color_in;
                             grab_frame_; grab_frame_color_out] pipeline in
        (pipeline, grab_frame_color_out)
    | None => (pipeline, display_pre_sink)
    end in
  let '(pipeline, display_pre_sink) :=
    if with_scale then
      let video_scale := element_factory_make "videoscale" "video_scale" in
      let caps_filter :=
        element_factory_make "capsfilter" "video_scale_caps_filter" in
      let pipeline := add [video_scale; caps_filter] pipeline in
      let pipeline :=
        element_link_many [display_pre_sink; video_scale; caps_filter]
                          pipeline in
      (pipeline, caps_filter)
    else (pipeline, display_pre_sink) in
  let '(pipeline, display_pre_sink) :=
    if with_warp then
      let warp_bin := mkElement "WarpBin" "warp_bin" [] in
      let pipeline := add [warp_bin] pipeline in
      let pipeline :=
        element_link_many [display_pre_sink; warp_bin] pipeline in
      (pipeline, warp_bin)
    else (pipeline, display_pre_sink) in
  let '(pipeline, display_pre_sink) :=
    match draw_queue with
    | Some dq =>
        if dq_bool dq then
          let cairo_color_in :=
            element_factory_make "ffmpegcolorspace" "cairo_color_in" in
          let cairo_draw := mkElement "CairoDrawQueue" "cairo_draw" [] in
          let cairo_draw := set_property "draw-queue" (PPickle dq) cairo_draw in
          let cairo_color_out :=
            element_factory_make "ffmpegcolorspace" "cairo_color_out" in
          let pipeline :=
            add [cairo_color_in; cairo_draw; cairo_color_out] pipeline in
          let pipeline :=
            element_link_many [display_pre_sink; cairo_color_in; cairo_draw;
                               cairo_color_out] pipeline in
          (pipeline, cairo_color_out)
        else (pipeline, display_pre_sink)
    | None => (pipeline, display_pre_sink)
    end in
  let pipeline := element_link_many [display_pre_sink; video_sink] pipeline in
  if truthy_int bitrate && truthy_str output_path then
    let capture_queue := element_factory_make "queue" "capture_queue" in
    let capture_color_in :=
      element_factory_make "ffmpegcolorspace" "ffmpeg_color_space" in
    let ffenc_mpeg4 :=
      if decide (platform_system = "Linux")
      then element_factory_make "ffenc_mpeg4" "ffenc_mpeg40"
      else element_factory_make "xvidenc" "ffenc_mpeg40" in
    let ffenc_mpeg4 :=
      set_property "bitrate" (PInt (default 0 bitrate)) ffenc_mpeg4 in
    let avi_mux := element_factory_make "avimux" "avi_mux" in
    let file_sink := element_factory_make "filesink" "file_sink" in
    let file_sink :=
      set_property "location" (PStr (default "" output_path)) file_sink in
    let pipeline :=
      add [capture_queue; capture_color_in; ffenc_mpeg4; avi_mux; file_sink]
          pipeline in
    element_link_many [video_tee; capture_queue; capture_color_in;
                       ffenc_mpeg4; avi_mux; file_sink] pipeline
  else pipeline.

(** [src_caps] is [video_src.get_pad('src').get_caps()]; the dictionary
    returned has the keys [num] and [denom]. *)
Definition get_framerate (src_caps : list (list (string * value)))
  : result (list (string * Z)) :=
  framerate ← CairoDraw.caps_item src_caps "framerate";
  match framerate with
  | VFraction f => Ok [("num", num f); ("denom", denom f)]
  | _ => Raise AttributeError
  end.

End VideoPipeline.

(** ** logging_helpers/__init__.py *)

Module LoggingHelpers.

(** The root logger: its handlers, by identity, and its level. *)
Record RootLogger : Type := mkRootLogger {
  handlers : list nat;
  level : Z
}.

(** [Logger.getEffectiveLevel] on the root logger, which has no parent:
    its level if that is set, [NOTSET] (0) otherwise. *)
Definition getEffectiveLevel (root : RootLogger) : Z :=
  if level root =? 0 then 0 else level root.

(** [list.remove(x)]: the first occurrence goes. *)
Fixpoint list_remove (x : nat) (l : list nat) : list nat :=
  match l with
  | [] => []
  | y :: l' => if decide (y = x) then l' else y :: list_remove x l'
  end.

(** [Logger.removeHandler]: nothing happens for an unknown handler. *)
Definition removeHandler (h : nat) (root : RootLogger) : RootLogger :=
  if bool_decide (h ∈ handlers root)
  then mkRootLogger (list_remove h (handlers root)) (level root)
  else root.

(** [Logger.addHandler]: a handler is not added twice. *)
Definition addHandler (h : nat) (root : RootLogger) : RootLogger :=
  if bool_decide (h ∈ handlers root) then root
  else mkRootLogger (handlers root ++ [h]) (level root).

Definition setLevel (lvl : Z) (root : RootLogger) : RootLogger :=
  mkRootLogger (handlers root) lvl.

(** [with logging_restore(clear_handlers): body].  The body is any code
    acting on the root logger.  The generator has no [try]: an exception of
    the body is raised at its [yield] and ends it there. *)
Definition logging_restore (clear_handlers : bool)
    (body : RootLogger -> result unit * RootLogger) (root : RootLogger)
  : result unit * RootLogger :=
  let saved_handlers := handlers root in
  let saved_level := getEffectiveLevel root in
  let root :=
    if clear_handlers
    then foldl (fun r h => removeHandler h r) root saved_handlers
    else root in
  match body root with
  | (Raise e, root) => (Raise e, root)
  | (Ok _, root) =>
      let handlers_to_remove := handlers root in
      let root := foldl (fun r h => removeHandler h r) root handlers_to_remove in
      let root := foldl (fun r h => addHandler h r) root saved_handlers in
      (Ok tt, setLevel saved_level root)
  end.

(** A stack frame: [f_globals.get('__name__')], the class name of
    [f_locals['self']] when there is a [self], and [f_code.co_name]. *)
Record Frame : Type := mkFrame {
  module_name : option string;
  self_class : option string;
  co_name : string
}.

(** [stack[start]] for a Python integer index. *)
Definition py_index {A} (l : list A) (i : Z) : result A :=
  let n := Z.of_nat (length l) in
  let j := if i <? 0 then i + n else i in
  if (j <? 0) || (n <=? j) then Raise IndexError
  else match l !! Z.to_nat j with
       | Some x => Ok x
       | None => Raise IndexError
       end.

(** ['.'.join(name)] *)
Fixpoint join_dots (name : list string) : string :=
  match name with
  | [] => ""
  | [x] => x
  | x :: rest => x +:+ "." +:+ join_dots rest
  end.

(** [stack] is [stack_(sys._getframe(1))]: the frames from the caller of
    [caller_name] outwards. *)
Definition caller_name (skip : Z) (stack : list Frame) : result string :=
  let start := 0 + skip in
  if Z.of_nat (length stack) <? start + 1 then Ok ""
  else
    parentframe ← py_index stack start;
    module_name ← match module_name parentframe with
                  | Some n => Ok n
                  | None => Raise KeyError
                  end;
    let name := [module_name] in
    let name := match self_class parentframe with
                | Some c => name ++ [c]
                | None => name
                end in
    let codename := co_name parentframe in
    let name := if decide (codename <> "<module>") then name ++ [codename]
                else name in
    Ok (join_dots name).

(** The frame of [_L] itself while it runs. *)
Definition L_frame (this_module : string) : Frame :=
  mkFrame (Some this_module) None "_L".

(** The name of the logger [_L(skip)] returns when called with [stack] as
    the frames from its caller outwards. *)
Definition _L (this_module : string) (skip : Z) (stack : list Frame)
  : result string :=
  caller_name (skip + 1) (L_frame this_module :: stack).

End LoggingHelpers.

(** ** flatland/out/util.py *)

Module FlatlandOut.

(** [True], [False] and [flatland.util.Maybe]. *)
Inductive trool : Type := TTrue | TFalse | TMaybe.

(** The argument of [parse_trool]: one of the three constants, a text, or
    any other object, given by its [six.text_type(value)]. *)
Inductive py_value : Type :=
  | PTrool (t : trool)
  | PText (s : string)
  | POther (text : string).

Definition YES : list string := ["1"; "true"; "True"; "t"; "on"; "yes"].
Definition NO : list string := ["0"; "false"; "False"; "nil"; "off"; "no"].
Definition MAYBE : list string := ["auto"].

(** [str.lower] on a text given by its UTF-8 bytes: the ASCII capitals are
    lowered.  No other character is lowered by Python to a text made of the
    letters the three tuples are written in, so membership in the tuples is
    the one Python computes. *)
Definition lower_ascii (a : Ascii.ascii) : Ascii.ascii :=
  let n := Ascii.nat_of_ascii a in
  if (65 <=? n)%nat && (n <=? 90)%nat then Ascii.ascii_of_nat (n + 32) else a.

Fixpoint lower (s : string) : string :=
  match s with
  | EmptyString => EmptyString
  | String a s' => String (lower_ascii a) (lower s')
  end.

Definition parse_trool (value : py_value) : trool :=
  match value with
  | PTrool t => t
  | PText s | POther s =>
      let value := lower s in
      if bool_decide (value ∈ YES) then TTrue
      else if bool_decide (value ∈ NO) then TFalse
      else if bool_decide (value ∈ MAYBE) then TMaybe
      else TMaybe
  end.

End FlatlandOut.

(** ** Helper definitions of the statements *)

(** Names of the optional display stages, in pipeline order, for the
    features that were requested. *)
Definition display_stages (draw_queue : option DrawQueue)
    (with_scale with_warp : bool) (on_frame_grabbed : option string)
  : list string :=
  (if VideoPipeline.truthy_callback on_frame_grabbed
   then ["grab_frame_color_in"; "grab_frame"; "grab_frame_color_out"] else [])
  ++ (if with_scale then ["video_scale"; "video_scale_caps_filter"] else [])
  ++ (if with_warp then ["warp_bin"] else [])
  ++ (if VideoPipeline.truthy_queue draw_queue
      then ["cairo_color_in"; "cairo_draw"; "cairo_color_out"] else []).

(** The five elements of a capture branch. *)
Definition capture_elements (platform_system : string) (bitrate : Z)
    (output_path : string) : list VideoPipeline.Element :=
  [ VideoPipeline.mkElement "queue" "capture_queue" [];
    VideoPipeline.mkElement "ffmpegcolorspace" "ffmpeg_color_space" [];
    VideoPipeline.mkElement
      (if decide (platform_system = "Linux") then "ffenc_mpeg4" else "xvidenc")
      "ffenc_mpeg40" [("bitrate", VideoPipeline.PInt bitrate)];
    VideoPipeline.mkElement "avimux" "avi_mux" [];
    VideoPipeline.mkElement "filesink" "file_sink"
      [("location", VideoPipeline.PStr output_path)] ].

(** A pipeline with a capture branch attached at the tee. *)
Definition with_capture (platform_system : string) (bitrate : Z)
    (output_path : string) (p : VideoPipeline.Pipeline)
  : VideoPipeline.Pipeline :=
  VideoPipeline.mkPipeline (VideoPipeline.pipeline_name p)
    (VideoPipeline.elements p
     ++ capture_elements platform_system bitrate output_path)
    (VideoPipeline.links p
     ++ VideoPipeline.chain
          ["video_tee"; "capture_queue"; "ffmpeg_color_space"; "ffenc_mpeg40";
           "avi_mux"; "file_sink"]).

(** An argument counts as supplied when it is not [None]. *)
Definition supplied {A} (x : option A) : bool :=
  match x with Some _ => true | None => false end.

(** Whether a pipeline has a capture branch: a link from the tee to the
    capture queue. *)
Definition has_capture_branch (p : VideoPipeline.Pipeline) : bool :=
  bool_decide (("video_tee", "capture_queue") ∈ VideoPipeline.links p).


(** The names [get_pipeline] gives to the elements it creates. *)
Definition reserved_names : list string :=
  ["video_rate"; "video_tee"; "display_queue"; "video_sink";
   "grab_frame_color_in"; "grab_frame"; "grab_frame_color_out";
   "video_scale"; "video_scale_caps_filter"; "warp_bin";
   "cairo_color_in"; "cairo_draw"; "cairo_color_out";
   "capture_queue"; "ffmpeg_color_space"; "ffenc_mpeg40"; "avi_mux";
   "file_sink"].

Definition capture_names : list string :=
  ["capture_queue"; "ffmpeg_color_space"; "ffenc_mpeg40"; "avi_mux";
   "file_sink"].

(** Names of the elements [get_pipeline] creates, in the order they are
    added, for the requested stages. *)
Definition created_names (stages : list string) (capture : bool)
  : list string :=
  ["video_rate"; "video_tee"; "display_queue"; "video_sink"]
  ++ stages ++ (if capture then capture_names else []).

(** The links [get_pipeline] makes after the one that leaves the source. *)
Definition created_links (stages : list string) (capture : bool)
  : list (string * string) :=
  ("video_rate", "video_tee")
    :: VideoPipeline.chain
         ("video_tee" :: "display_queue" :: stages ++ ["video_sink"])
    ++ (if capture then VideoPipeline.chain ("video_tee" :: capture_names)
        else []).




(** The text [parse_trool] looks up, for an argument that is not one of the
    three constants. *)
Definition text_of (value : FlatlandOut.py_value) : option string :=
  match value with
  | FlatlandOut.PTrool _ => None
  | FlatlandOut.PText s | FlatlandOut.POther s => Some s
  end.

(** ** Concrete inputs *)

(** The capability structures of a webcam: a format with a range of widths
    and a range of framerates, one with a list of framerates, and one with a
    single framerate. *)
Definition webcam_caps : list VideoSource.Structure :=
  [ VideoSource.mkStructure "video/x-raw-yuv"
      [("format", VFourcc "YUY2"); ("width", VIntRange 160 640);
       ("height", VInt 480);
       ("framerate", VFractionRange (mkFraction 15 2) (mkFraction 30 1))];
    VideoSource.mkStructure "video/x-raw-yuv"
      [("format", VFourcc "I420"); ("width", VInt 320);
       ("height", VIntRange 120 240);
       ("framerate", VList [VFraction (mkFraction 30 1);
                            VFraction (mkFraction 15 1);
                            VFraction (mkFraction 30 1)])];
    VideoSource.mkStructure "video/x-raw-yuv"
      [("format", VFourcc "YV12"); ("width", VInt 160); ("height", VInt 120);
       ("framerate", VFraction (mkFraction 25 1))] ].

(** A Linux machine with one camera that links; any other name fails to
    link. *)
Definition linux_host : VideoSource.Host :=
  VideoSource.mkHost "Linux" (Ok ["cam0"]) (Ok [])
    (fun device_name => if decide (device_name = "cam0")
                        then VideoSource.Linked webcam_caps
                        else VideoSource.LinkFails).

Definition webcam_table : DataFrame :=
  VideoSource.get_allowed_capabilities linux_host "cam0".

(** A Linux machine on which [/dev/v4l/by-id] exists and is empty. *)
Definition linux_empty_directory : VideoSource.Host :=
  VideoSource.mkHost "Linux" (Ok []) (Ok []) (fun _ => VideoSource.LinkFails).

(** A Cairo binding that gives a context for every buffer and raises on
    [text_path]. *)
Definition cairo_without_text : Drawing.Cairo :=
  Drawing.mkCairo
    (fun _ _ _ => Ok tt)
    (fun _ op => match op with
                 | Drawing.text_path _ => Some CairoError
                 | _ => None
                 end)
    (fun _ => (0, 0)%float).

Definition frame_buffer : CairoDraw.Buffer :=
  CairoDraw.mkBuffer
    (Ok [[("width", VInt 640); ("height", VInt 480);
          ("framerate", VFraction (mkFraction 30 1))]])
    cairo_without_text.

(** A draw queue that writes a label. *)
Definition label_queue : DrawQueue :=
  mkDrawQueue
    (fun ctx =>
       _ ← Drawing.ctx_call ctx (Drawing.move_to 10 20);
       _ ← Drawing.ctx_call ctx (Drawing.text_path "overlay");
       Drawing.ctx_call ctx Drawing.fill)
    true.

(** [CairoDrawQueue('cairo_draw')] after its ['draw-queue'] property was
    set. *)
Definition overlay_element : CairoDraw.Element :=
  CairoDraw.do_set_property (CairoDraw.CairoDrawQueue "cairo_draw") label_queue.

Definition fresh_world : Drawing.World := Drawing.mkWorld [] [].

(** The machine of [linux_host] with [/dev/v4l/by-id] missing. *)
Definition linux_host_without_directory : VideoSource.Host :=
  VideoSource.mkHost "Linux" (Raise OSError) (Ok [])
    (VideoSource.link_source linux_host).

(** A Windows machine on which probing for device names fails. *)
Definition windows_without_camera : VideoSource.Host :=
  VideoSource.mkHost "Windows" (Raise OSError) (Raise ValueError)
    (fun _ => VideoSource.LinkFails).

(** A device that offers raw video and JPEG; the JPEG structure has no
    format field. *)
Definition mixed_caps : list VideoSource.Structure :=
  [ VideoSource.mkStructure "video/x-raw-yuv"
      [("format", VFourcc "YUY2"); ("width", VInt 640); ("height", VInt 480);
       ("framerate", VFraction (mkFraction 30 1))];
    VideoSource.mkStructure "image/jpeg"
      [("width", VInt 640); ("height", VInt 480);
       ("framerate", VFraction (mkFraction 30 1))] ].

(** A device that only offers JPEG. *)
Definition jpeg_caps : list VideoSource.Structure :=
  [ VideoSource.mkStructure "image/jpeg"
      [("width", VInt 640); ("height", VInt 480);
       ("framerate", VFraction (mkFraction 30 1))] ].

Definition studio_host : VideoSource.Host :=
  VideoSource.mkHost "Linux" (Ok ["cam0"; "mixed"; "jpeg"]) (Ok [])
    (fun device_name =>
       if decide (device_name = "cam0") then VideoSource.Linked webcam_caps
       else if decide (device_name = "mixed") then VideoSource.Linked mixed_caps
       else if decide (device_name = "jpeg") then VideoSource.Linked jpeg_caps
       else VideoSource.LinkFails).

Definition webcam_source : VideoPipeline.Element :=
  VideoPipeline.mkElement "v4l2src" "video_source"
    [("device", VideoPipeline.PStr "/dev/video0")].

(** A buffer whose caps give no framerate. *)
Definition still_buffer : CairoDraw.Buffer :=
  CairoDraw.mkBuffer
    (Ok [[("width", VInt 640); ("height", VInt 480)]])
    cairo_without_text.

(** A root logger with two handlers at level [WARNING], and two bodies of a
    [with] block: one that adds a handler and lowers the level, one that
    does the same and raises. *)
Definition two_handlers : LoggingHelpers.RootLogger :=
  LoggingHelpers.mkRootLogger [1%nat; 2%nat] 30.

Definition quiet_body (root : LoggingHelpers.RootLogger)
  : result unit * LoggingHelpers.RootLogger :=
  (Ok tt, LoggingHelpers.setLevel 10 (LoggingHelpers.addHandler 7%nat root)).

Definition failing_body (root : LoggingHelpers.RootLogger)
  : result unit * LoggingHelpers.RootLogger :=
  (Raise ValueError,
   LoggingHelpers.setLevel 10 (LoggingHelpers.addHandler 7%nat root)).

(** * Properties *)

(** ** Generic facts on fallible maps and zips *)

Section ListFacts.

Context {A B C D : Type}.

Lemma bind_Ok (a : A) (f : A -> result B) : (Ok a ≫= f) = f a.
Proof. reflexivity. Qed.

End ListFacts.

(** ** Column lookup *)

Section ColumnFacts.

Lemma col_index_Some label cols :
  label ∈ cols ->
  exists i, Pandas.col_index label cols = Some i /\ cols !! i = Some label.
Proof.
  induction cols as [|c cs IH]; [by rewrite elem_of_nil|].
  intros Hin. cbn. destruct (decide (c = label)) as [->|Hne].
  - by exists 0%nat.
  - apply elem_of_cons in Hin as [?|Hin]; [congruence|].
    destruct (IH Hin) as (i & -> & Hi). by exists (S i).
Qed.

End ColumnFacts.

(** ** The capability table and its normalisation *)

Section ExpandFacts.

Import VideoSource.

Lemma get_column_at label cols rs i :
Pandas.col_index label cols = Some i ->
Pandas.get_column label (mkDataFrame cols rs) = Ok (map (Pandas.cell i) rs).
Proof. unfold Pandas.get_column. cbn. by intros ->. Qed.

Lemma lookup_cell_at label cols i row :
Pandas.col_index label cols = Some i ->
lookup_cell cols label row = Pandas.cell i row.
Proof. unfold lookup_cell. by intros ->. Qed.

#[local] Instance tuple_le_total : Total tuple_le.
Proof. intros [a b] [c d]. unfold tuple_le. cbn. lia. Qed.

#[local] Instance tuple_le_trans : Transitive tuple_le.
Proof. intros [a b] [c d] [e f]. unfold tuple_le. cbn. lia. Qed.

#[local] Instance tuple_le_antisymm : AntiSymm (=) tuple_le.
Proof.
  intros [a b] [c d]. unfold tuple_le. cbn. intros H1 H2.
  f_equal; lia.
Qed.

Lemma elem_of_sorted_set xs x : x ∈ sorted_set xs <-> x ∈ xs.
Proof.
  unfold sorted_set. by rewrite merge_sort_Permutation, elem_of_remove_dups.
Qed.

Lemma NoDup_sorted_set xs : NoDup (sorted_set xs).
Proof.
  unfold sorted_set. rewrite merge_sort_Permutation. apply NoDup_remove_dups.
Qed.

Lemma Sorted_sorted_set xs : StronglySorted tuple_le (sorted_set xs).
Proof. apply StronglySorted_merge_sort; apply _. Qed.

Lemma mapM_fps_tuple items l :
  mapM fps_tuple items = Ok l ->
  forall fps, fps ∈ l <-> VFraction (mkFraction fps.1 fps.2) ∈ items.
Proof.
  revert l. induction items as [|v items IH]; intros l; cbn.
  - intros [= <-] fps. by rewrite !elem_of_nil.
  - destruct (fps_tuple v) as [t|] eqn:Ht; [|done]. cbn.
    fold (mapM fps_tuple items).
    destruct (mapM fps_tuple items) as [l'|]; [|done]. cbn.
    intros [= <-] fps. rewrite !elem_of_cons, (IH l' eq_refl).
    destruct v; try discriminate. injection Ht as <-.
    destruct fps0 as [n d], fps as [n' d']. cbn. split.
    + intros [[= -> ->]|?]; auto.
    + intros [[= -> ->]|?]; auto.
Qed.

Lemma cell_map {A} (F : A -> value) (l : list A) i x :
  l !! i = Some x -> Pandas.cell i (map F l) = F x.
Proof.
  revert i. induction l as [|a l IH]; intros [|i]; cbn; try done.
  - by intros [= ->].
  - apply IH.
Qed.

Lemma dict_set_keys k v d k' :
  k' ∈ (Pandas.dict_set k v d).*1 <-> k' = k \/ k' ∈ d.*1.
Proof.
  induction d as [|[k0 v0] d IH]; cbn.
  - rewrite list_elem_of_singleton, elem_of_nil. tauto.
  - destruct (decide (k0 = k)) as [->|Hne]; cbn; rewrite !elem_of_cons.
    + tauto.
    + rewrite IH. tauto.
Qed.

Lemma dict_keys pairs k : k ∈ (Pandas.dict pairs).*1 <-> k ∈ pairs.*1.
Proof.
  unfold Pandas.dict.
  assert (forall acc, k ∈ (foldl (fun d kv => Pandas.dict_set kv.1 kv.2 d) acc pairs).*1
                      <-> k ∈ acc.*1 \/ k ∈ pairs.*1) as Hgen.
  { induction pairs as [|[k0 v0] pairs IH]; intros acc; cbn.
    - rewrite elem_of_nil. tauto.
    - rewrite IH, dict_set_keys, elem_of_cons. tauto. }
  rewrite Hgen. cbn. rewrite elem_of_nil. tauto.
Qed.

Lemma link_fails_no_rows host device_name :
  link_source host device_name = LinkFails ->
  get_allowed_capabilities host device_name = empty_frame.
Proof. unfold get_allowed_capabilities. by intros ->. Qed.

Lemma mapM_extract_format_Raise formats e :
  mapM extract_format formats = Raise e -> e = AttributeError.
Proof.
  induction formats as [|v formats IH]; cbn; [done|].
  fold (mapM extract_format formats).
  destruct (extract_format v) as [s|e'] eqn:Hv; cbn.
  - destruct (mapM extract_format formats) as [l|e'']; cbn; [done|].
    intros [= <-]. by apply IH.
  - intros [= <-]. destruct v; cbn in Hv; congruence.
Qed.

(** The normalisation returns no table: it raises [KeyError] when one of
    the four capability columns is missing, and [AttributeError] otherwise,
    at the latest where it asks the Series of dimensions for [width]. *)
Lemma expand_raises df :
  expand_allowed_capabilities df
  = Raise (if forallb (fun l => bool_decide (l ∈ columns df)) caps_labels
           then AttributeError else KeyError).
Proof.
  destruct df as [cols rs].
  unfold expand_allowed_capabilities, Pandas.drop_labels. cbn [columns rows].
  change ["framerate"; "width"; "height"; "format"] with caps_labels.
  destruct (forallb (fun l => bool_decide (l ∈ cols)) caps_labels) eqn:Hall;
    [|reflexivity].
  assert (forall l, l ∈ caps_labels -> l ∈ cols) as Hin.
  { intros l Hl. rewrite forallb_forall in Hall.
    eapply bool_decide_eq_true_1, Hall. by apply list_elem_of_In. }
  destruct (col_index_Some "format" cols) as (i_f & Hf & _);
    [apply Hin; compute_done|].
  destruct (col_index_Some "width" cols) as (i_w & Hw & _);
    [apply Hin; compute_done|].
  destruct (col_index_Some "height" cols) as (i_h & Hh & _);
    [apply Hin; compute_done|].
  rewrite bind_Ok, (get_column_at _ _ _ _ Hf), bind_Ok.
  destruct (mapM extract_format (map (Pandas.cell i_f) rs)) as [fourcc|e]
    eqn:Hfourcc.
  - rewrite bind_Ok. cbv zeta.
    rewrite (get_column_at _ _ _ _ Hw), bind_Ok.
    rewrite (get_column_at _ _ _ _ Hh), bind_Ok.
    reflexivity.
  - by rewrite (mapM_extract_format_Raise _ _ Hfourcc).
Qed.

(** C3: the list [extract_dimensions] returns for a row holds the upper
    bound of a width or height given as a range and a scalar unchanged, but
    no normalised row gets them: on every capability table with rows and
    the four capability columns the normalisation raises [AttributeError],
    at the latest where it asks the Series of these lists for [width]. *)
Theorem dimensions_never_reach_a_row (df : DataFrame) :
  has_rows df = true ->
  Forall (fun l => l ∈ columns df) caps_labels ->
  (forall low high height,
     (extract_dimensions (VIntRange low high, height)).1 = VInt high)
  /\ (forall width low high,
        (extract_dimensions (width, VIntRange low high)).2 = VInt high)
  /\ (forall width height,
        extract_dimensions (VInt width, VInt height)
        = (VInt width, VInt height))
  /\ expand_allowed_capabilities df = Raise AttributeError.
Proof.
  intros _ Hin. do 3 (split; [reflexivity|]).
  rewrite expand_raises.
  assert (forallb (fun l => bool_decide (l ∈ columns df)) caps_labels = true)
    as ->; [|reflexivity].
  apply forallb_forall. intros l Hl. apply bool_decide_eq_true.
  rewrite Forall_forall in Hin. by apply Hin, list_elem_of_In.
Qed.

(** C2: the capability table of the webcam has a framerate range, a list
    of framerates with a repetition and a single framerate, for which
    [extract_fps] gives two, two and one framerate; no row is built from
    them, since the normalisation raises [AttributeError] before it reads
    the framerates. *)
Theorem framerate_rows_are_never_built :
  map (lookup_cell (columns webcam_table) "framerate") (rows webcam_table)
  = [ VFractionRange (mkFraction 15 2) (mkFraction 30 1);
      VList [VFraction (mkFraction 30 1); VFraction (mkFraction 15 1);
             VFraction (mkFraction 30 1)];
      VFraction (mkFraction 25 1) ]
  /\ map extract_fps
         (map (lookup_cell (columns webcam_table) "framerate")
              (rows webcam_table))
     = [ Ok [(15, 2); (30, 1)]; Ok [(15, 1); (30, 1)]; Ok [(25, 1)] ]
  /\ expand_allowed_capabilities webcam_table = Raise AttributeError.
Proof. repeat split; vm_compute; reflexivity. Qed.

(** C6: for an empty list of device names, and for device names that all
    fail to link, [get_source_capabilities] returns the empty table and
    raises nothing. *)
Theorem no_device_rows_gives_empty_table (host : Host) :
  get_source_capabilities host (Some []) = Ok empty_frame
  /\ forall names,
       Forall (fun device_name => link_source host device_name = LinkFails)
              names ->
       get_source_capabilities host (Some names) = Ok empty_frame.
Proof.
  split; [reflexivity|]. intros names Hfail.
  unfold get_source_capabilities. rewrite bind_Ok.
  assert (source_frames host names = Ok []) as ->; [|reflexivity].
  induction Hfail as [|d names Hd _ IH]; [reflexivity|].
  cbn [source_frames]. by rewrite (link_fails_no_rows _ _ Hd).
Qed.

Lemma source_frames_outcome host names :
  match source_frames host names with
  | Ok frames =>
      frames = []
      /\ Forall (fun d => has_rows (get_allowed_capabilities host d) = false)
                names
  | Raise e =>
      (e = KeyError \/ e = AttributeError)
      /\ Exists (fun d => has_rows (get_allowed_capabilities host d) = true)
                names
  end.
Proof.
  induction names as [|d names IH]; [by split|].
  cbn [source_frames].
  destruct (bool_decide
              (length (rows (get_allowed_capabilities host d)) = 0%nat))
    eqn:Hempty.
  - destruct (source_frames host names) as [frames|e].
    + destruct IH as [-> Hall]. split; [done|].
      apply Forall_cons. split; [|done].
      unfold has_rows. by rewrite Hempty.
    + destruct IH as [He Hex]. split; [done|]. by apply Exists_cons_tl.
  - rewrite expand_raises.
    assert (has_rows (get_allowed_capabilities host d) = true) as Hrows
      by (unfold has_rows; by rewrite Hempty).
    destruct (forallb _ caps_labels); cbn;
      (split; [tauto|by apply Exists_cons_hd]).
Qed.

(** C9: [get_source_capabilities] returns no table with the seven columns.
    It returns the table without columns and rows when no named device has
    a capability row; as soon as one has, it raises [KeyError] or
    [AttributeError], as for the webcam of [linux_host]. *)
Theorem source_capabilities_are_never_tabulated (host : Host)
    (names : list string) :
  match get_source_capabilities host (Some names) with
  | Ok out =>
      out = empty_frame
      /\ Forall (fun d => has_rows (get_allowed_capabilities host d) = false)
                names
  | Raise e =>
      (e = KeyError \/ e = AttributeError)
      /\ Exists (fun d => has_rows (get_allowed_capabilities host d) = true)
                names
  end
  /\ get_source_capabilities linux_host (Some ["cam0"]) = Raise AttributeError.
Proof.
  split; [|vm_compute; reflexivity].
  unfold get_source_capabilities. rewrite bind_Ok.
  pose proof (source_frames_outcome host names) as Hframes.
  destruct (source_frames host names) as [frames|e]; [|exact Hframes].
  destruct Hframes as [-> Hall]. by split.
Qed.

End ExpandFacts.

(** ** Pipeline assembly *)

Section PipelineFacts.

Import VideoPipeline.

Variable platform_system : string.
Variable video_source : Element.

(** The capture block of [get_pipeline] only appends to the pipeline the
    display part has built. *)
Lemma get_pipeline_capture bitrate output_path draw_queue with_scale
    with_warp on_frame_grabbed :
  get_pipeline platform_system video_source bitrate output_path draw_queue
               with_scale with_warp on_frame_grabbed
  = let display := get_pipeline platform_system video_source None None
                     draw_queue with_scale with_warp on_frame_grabbed in
    if truthy_int bitrate && truthy_str output_path
    then with_capture platform_system (default 0 bitrate)
                      (default "" output_path) display
    else display.
Proof.
  unfold get_pipeline, with_capture, capture_elements.
  destruct (truthy_int bitrate && truthy_str output_path);
    destruct draw_queue as [[ops []]|], with_scale, with_warp,
      on_frame_grabbed; cbn -[decide chain];
    try reflexivity; destruct (decide (platform_system = "Linux")); reflexivity.
Qed.

Lemma display_links draw_queue with_scale with_warp on_frame_grabbed :
  links (get_pipeline platform_system video_source None None draw_queue
                      with_scale with_warp on_frame_grabbed)
  = chain [name video_source; "video_rate"; "video_tee"]
    ++ chain ("video_tee" :: "display_queue"
              :: display_stages draw_queue with_scale with_warp
                                on_frame_grabbed ++ ["video_sink"]).
Proof.
  destruct draw_queue as [[ops []]|], with_scale, with_warp,
    on_frame_grabbed; reflexivity.
Qed.

Lemma display_elements draw_queue with_scale with_warp on_frame_grabbed :
  map name (elements (get_pipeline platform_system video_source None None
                        draw_queue with_scale with_warp on_frame_grabbed))
  = [name video_source; "video_rate"; "video_tee"; "display_queue";
     "video_sink"]
    ++ display_stages draw_queue with_scale with_warp on_frame_grabbed.
Proof.
  destruct draw_queue as [[ops []]|], with_scale, with_warp,
    on_frame_grabbed; reflexivity.
Qed.

Lemma display_has_no_capture draw_queue with_scale with_warp on_frame_grabbed :
  has_capture_branch
    (get_pipeline platform_system video_source None None draw_queue
                  with_scale with_warp on_frame_grabbed) = false.
Proof.
  unfold has_capture_branch. rewrite display_links.
  apply bool_decide_eq_false. rewrite elem_of_app.
  destruct draw_queue as [[ops []]|], with_scale, with_warp,
    on_frame_grabbed; cbn; rewrite ?elem_of_cons, ?elem_of_nil;
    intros Hin; decompose [or] Hin; try discriminate; done.
Qed.


(** C5: with a video source only, the pipeline holds exactly the source, the
    videorate element, the tee, the display queue and the video sink, linked
    in that order; nothing else is added or linked. *)
Theorem bare_pipeline :
  let p := get_pipeline platform_system video_source
                        None None None false false None in
  elements p = [ video_source;
                 mkElement "videorate" "video_rate" [];
                 mkElement "tee" "video_tee" [];
                 mkElement "queue" "display_queue" [];
                 mkElement "autovideosink" "video_sink" [] ]
  /\ links p = [ (name video_source, "video_rate");
                 ("video_rate", "video_tee");
                 ("video_tee", "display_queue");
                 ("display_queue", "video_sink") ].
Proof. split; reflexivity. Qed.

(** C10: a bitrate of 0, or an empty output path, builds no capture branch
    although the argument was passed: the pipeline is the one built without
    bitrate and output path. *)
Theorem falsy_capture_arguments :
  forall (bitrate : option Z) (output_path : option string)
         (draw_queue : option DrawQueue) (with_scale with_warp : bool)
         (on_frame_grabbed : option string),
    let build b o := get_pipeline platform_system video_source b o draw_queue
                                  with_scale with_warp on_frame_grabbed in
    (supplied (Some 0) = true
     /\ build (Some 0) output_path = build None None
     /\ has_capture_branch (build (Some 0) output_path) = false)
    /\ (supplied (Some "") = true
        /\ build bitrate (Some "") = build None None
        /\ has_capture_branch (build bitrate (Some "")) = false).
Proof.
  intros bitrate output_path draw_queue with_scale with_warp on_frame_grabbed.
  cbv beta zeta.
  assert (get_pipeline platform_system video_source (Some 0) output_path
            draw_queue with_scale with_warp on_frame_grabbed
          = get_pipeline platform_system video_source None None
              draw_queue with_scale with_warp on_frame_grabbed) as Hzero
    by by rewrite get_pipeline_capture.
  assert (get_pipeline platform_system video_source bitrate (Some "")
            draw_queue with_scale with_warp on_frame_grabbed
          = get_pipeline platform_system video_source None None
              draw_queue with_scale with_warp on_frame_grabbed) as Hempty.
  { rewrite get_pipeline_capture. cbv zeta. cbn [truthy_str].
    by rewrite bool_decide_true, andb_false_r. }
  rewrite Hzero, Hempty, display_has_no_capture. done.
Qed.


(** C8: whatever display features are requested, the links of the pipeline
    are the two of the backbone (source to videorate, videorate to tee),
    then those of one path from the tee through the display queue and
    exactly the requested stages, in the order grab, scale, warp, draw, to
    the video sink: every name of the path is linked to the next one, so a
    stage, and at last the sink, is linked from the last stage present
    before it.  The links of the capture branch follow if there is one, and
    the elements added are those of these paths. *)
Theorem display_branch_is_linear :
  forall (bitrate : option Z) (output_path : option string)
         (draw_queue : option DrawQueue) (with_scale with_warp : bool)
         (on_frame_grabbed : option string),
    let p := get_pipeline platform_system video_source bitrate output_path
               draw_queue with_scale with_warp on_frame_grabbed in
    let stages :=
      (if truthy_callback on_frame_grabbed
       then ["grab_frame_color_in"; "grab_frame"; "grab_frame_color_out"]
       else [])
      ++ (if with_scale then ["video_scale"; "video_scale_caps_filter"]
          else [])
      ++ (if with_warp then ["warp_bin"] else [])
      ++ (if truthy_queue draw_queue
          then ["cairo_color_in"; "cairo_draw"; "cairo_color_out"] else []) in
    let path := "video_tee" :: "display_queue" :: stages ++ ["video_sink"] in
    let capture := truthy_int bitrate && truthy_str output_path in
    links p
    = [ (name video_source, "video_rate"); ("video_rate", "video_tee") ]
      ++ zip path (tail path)
      ++ (if capture
          then [ ("video_tee", "capture_queue");
                 ("capture_queue", "ffmpeg_color_space");
                 ("ffmpeg_color_space", "ffenc_mpeg40");
                 ("ffenc_mpeg40", "avi_mux");
                 ("avi_mux", "file_sink") ]
          else [])
    /\ (forall i a b,
          path !! i = Some a -> path !! S i = Some b -> (a, b) ∈ links p)
    /\ map name (elements p)
       = [name video_source; "video_rate"; "video_tee"; "display_queue";
          "video_sink"]
         ++ stages
         ++ (if capture
             then ["capture_queue"; "ffmpeg_color_space"; "ffenc_mpeg40";
                   "avi_mux"; "file_sink"]
             else []).
Proof.
  intros bitrate output_path draw_queue with_scale with_warp on_frame_grabbed.
  cbv zeta.
  set (stages := _ ++ _ ++ _ ++ _).
  set (path := "video_tee" :: "display_queue" :: stages ++ ["video_sink"]).
  assert (links (get_pipeline platform_system video_source bitrate output_path
                   draw_queue with_scale with_warp on_frame_grabbed)
          = [ (name video_source, "video_rate"); ("video_rate", "video_tee") ]
            ++ zip path (tail path)
            ++ (if truthy_int bitrate && truthy_str output_path
                then [ ("video_tee", "capture_queue");
                       ("capture_queue", "ffmpeg_color_space");
                       ("ffmpeg_color_space", "ffenc_mpeg40");
                       ("ffenc_mpeg40", "avi_mux");
                       ("avi_mux", "file_sink") ]
                else [])) as Hlinks.
  { rewrite get_pipeline_capture. cbv zeta. subst path stages.
    destruct (truthy_int bitrate && truthy_str output_path);
      [unfold with_capture; cbn [links]|]; rewrite display_links;
      destruct draw_queue as [[ops []]|], with_scale, with_warp,
        on_frame_grabbed; reflexivity. }
  split; [exact Hlinks|]. split.
  - intros i a b Ha Hb. rewrite Hlinks.
    apply elem_of_app. right. apply elem_of_app. left.
    apply list_elem_of_lookup. exists i.
    apply lookup_zip_with_Some. exists a, b. split; [done|]. split; [done|].
    by rewrite lookup_tail.
  - rewrite get_pipeline_capture. cbv zeta. subst stages.
    destruct (truthy_int bitrate && truthy_str output_path);
      [unfold with_capture; cbn [elements]; rewrite map_app|];
      rewrite display_elements;
      destruct draw_queue as [[ops []]|], with_scale, with_warp,
        on_frame_grabbed; reflexivity.
Qed.

End PipelineFacts.


(** ** Device discovery *)

Section DiscoveryFacts.

Import VideoSource.

(** Off Linux an empty or failed probe raises [DeviceNotFound]. *)
Lemma other_platforms_raise_device_not_found (host : Host) :
  platform_system host <> "Linux" ->
  match get_video_source_names host with
  | Ok devices => devices <> []
  | Raise e => e = DeviceNotFound
  end.
Proof.
  intros Hplatform. unfold get_video_source_names.
  rewrite decide_False by done.
  destruct (probe_get_values_name host) as [[|d devices]|e]; cbn; done.
Qed.

(** On Linux a directory that cannot be listed raises [DeviceNotFound]. *)
Lemma linux_missing_directory_raises (host : Host) :
  platform_system host = "Linux" ->
  listdir_v4l_by_id host = Raise OSError ->
  get_video_source_names host = Raise DeviceNotFound.
Proof.
  intros Hplatform Hdir. unfold get_video_source_names.
  by rewrite decide_True, Hdir by done.
Qed.

(** C7, at the failing input: on Linux, with [/dev/v4l/by-id] present and
    empty, discovery returns the empty list and raises nothing; the query
    over all devices then returns an empty table. *)
Theorem linux_empty_directory_returns_no_names :
  get_video_source_names linux_empty_directory = Ok []
  /\ get_source_capabilities linux_empty_directory None = Ok empty_frame.
Proof. split; reflexivity. Qed.

End DiscoveryFacts.

(** ** The overlay transform *)

Section CairoFacts.

Import Drawing CairoDraw.

Lemma guarded_draw_returns blue buf w :
  exists w', guarded_draw blue buf w = (Ok tt, w').
Proof.
  unfold guarded_draw, try_except, lift, mbind, M_bind, mret, M_ret.
  destruct (acquire true buf) as [[width height]|e]; cbn.
  - destruct (hello_world blue buf width height w) as [[[]|e] w'];
      cbn; eauto.
  - eauto.
Qed.

(** With the draw function of [CairoDrawBase], the default one or the
    method, the transform returns [FLOW_OK] whatever the buffer and the Cairo
    binding do. *)
Lemma base_transform_flow_ok name default buf w :
  (do_transform_ip (CairoDrawBase name default) buf w).1 = Ok FLOW_OK.
Proof.
  unfold do_transform_ip, CairoDrawBase, other_draw_on, draw_on.
  destruct default; cbn [draw_func]; unfold mbind, M_bind.
  - destruct (guarded_draw_returns 1 buf w) as [w' ->]. reflexivity.
  - destruct (guarded_draw_returns 0 buf w) as [w' ->]. reflexivity.
Qed.

(** When no context can be had for the buffer, the draw function of
    [CairoDrawBase] issues no drawing call and logs the failure. *)
Lemma base_surface_failure name default buf w e :
  acquire true buf = Raise e ->
  do_transform_ip (CairoDrawBase name default) buf w
  = (Ok FLOW_OK,
     mkWorld (stdout w ++ ["Failed to create cairo surface for buffer"]
                       ++ ["Traceback"])
             (issued w)).
Proof.
  intros Hacq.
  unfold do_transform_ip, CairoDrawBase, other_draw_on, draw_on.
  destruct default; cbn [draw_func];
    unfold guarded_draw, try_except, lift, mbind, M_bind, mret, M_ret;
    rewrite Hacq; cbn; by rewrite <- app_assoc.
Qed.

(** The same holds for [render_draw_queue] when no context can be had. *)
Lemma queue_surface_failure name dq buf w e :
  dq_bool dq = true ->
  acquire false buf = Raise e ->
  do_transform_ip (do_set_property (CairoDrawQueue name) dq) buf w
  = (Ok FLOW_OK,
     mkWorld (stdout w ++ ["Failed to create cairo surface for buffer"]
                       ++ ["Traceback"])
             (issued w)).
Proof.
  intros Hdq Hacq.
  unfold do_transform_ip, do_set_property, CairoDrawQueue, render_draw_queue.
  cbn [draw_func draw_queue]. rewrite Hdq.
  unfold try_except, lift, mbind, M_bind, mret, M_ret.
  rewrite Hacq. cbn. by rewrite <- app_assoc.
Qed.

(** A failure of [render] leaves the transform of a [CairoDrawQueue]
    element as it is raised. *)
Lemma queue_render_failure_escapes name dq buf w size e w' :
  dq_bool dq = true ->
  acquire false buf = Ok size ->
  render dq (cairo buf) w = (Raise e, w') ->
  do_transform_ip (do_set_property (CairoDrawQueue name) dq) buf w
  = (Raise e, w').
Proof.
  intros Hdq Hacq Hrender.
  unfold do_transform_ip, do_set_property, CairoDrawQueue, render_draw_queue.
  cbn [draw_func draw_queue]. rewrite Hdq.
  unfold try_except, lift, mbind, M_bind, mret, M_ret.
  rewrite Hacq. cbn. by rewrite Hrender.
Qed.

(** C1, at the failing input: a draw queue whose rendering raises.  The
    exception leaves [do_transform_ip] of the [CairoDrawQueue] element:
    no [FLOW_OK] is returned and nothing is logged, while the calls issued
    before the failure stay on the buffer.  On the same buffer the
    [CairoDrawBase] draw function catches the failure of the same Cairo call,
    logs it and returns [FLOW_OK]. *)
Theorem render_failure_leaves_transform :
  (do_transform_ip overlay_element frame_buffer fresh_world).1
    = Raise CairoError
  /\ stdout (do_transform_ip overlay_element frame_buffer fresh_world).2 = []
  /\ issued (do_transform_ip overlay_element frame_buffer fresh_world).2
     = [move_to 10 20]
  /\ (do_transform_ip (CairoDrawBase "cairo_draw" true) frame_buffer
                      fresh_world).1 = Ok FLOW_OK
  /\ stdout (do_transform_ip (CairoDrawBase "cairo_draw" true) frame_buffer
                             fresh_world).2
     = ["Failed cairo render"; "Traceback"].
Proof. repeat split; vm_compute; reflexivity. Qed.

End CairoFacts.

(** ** Witnesses *)

Section Instances.

Import VideoSource.

Lemma no_device_rows_gives_empty_table_witness :
  Forall (fun device_name => link_source linux_host device_name = LinkFails)
         ["cam1"; "cam2"]
  /\ get_source_capabilities linux_host (Some ["cam1"; "cam2"])
     = Ok empty_frame.
Proof.
  assert (Forall (fun device_name =>
                    link_source linux_host device_name = LinkFails)
                 ["cam1"; "cam2"]) as Hfail
    by (repeat constructor).
  split; [exact Hfail|].
  exact (proj2 (no_device_rows_gives_empty_table linux_host) _ Hfail).
Defined.

Lemma dimensions_never_reach_a_row_witness :
  has_rows webcam_table = true
  /\ Forall (fun l => l ∈ columns webcam_table) caps_labels
  /\ extract_dimensions (VIntRange 160 640, VInt 480) = (VInt 640, VInt 480)
  /\ expand_allowed_capabilities webcam_table = Raise AttributeError.
Proof.
  assert (has_rows webcam_table = true) as Hrows by (vm_compute; reflexivity).
  assert (Forall (fun l => l ∈ columns webcam_table) caps_labels) as Hin
    by (vm_compute; repeat constructor; apply list_elem_of_In; cbn; tauto).
  split; [exact Hrows|]. split; [exact Hin|]. split; [reflexivity|].
  exact (proj2 (proj2 (proj2
           (dimensions_never_reach_a_row webcam_table Hrows Hin)))).
Defined.

End Instances.

(** * Further properties of the code *)

(** ** Device discovery and the loop over the devices *)

Section DiscoveryExtras.
Import VideoSource.

(** X1: away from Linux the device names are those the probe of the video
    source element reports.  A probe that raises, or reports no name, makes
    the discovery raise [DeviceNotFound], and so does the capability table
    asked without device names; the discovery never returns an empty
    list. *)
Theorem discovery_off_linux (host : Host) :
  platform_system host <> "Linux" ->
  match get_video_source_names host with
  | Ok devices =>
      devices <> [] /\ probe_get_values_name host = Ok devices
  | Raise e =>
      e = DeviceNotFound
      /\ (probe_get_values_name host = Ok []
          \/ exists e', probe_get_values_name host = Raise e')
      /\ get_source_capabilities host None = Raise DeviceNotFound
  end.
Proof.
  intros Hplatform. unfold get_source_capabilities, get_video_source_names.
  rewrite decide_False by done.
  destruct (probe_get_values_name host) as [[|d devices]|e]; cbn; eauto.
Qed.

Lemma get_allowed_capabilities_ext h1 h2 d :
  link_source h1 d = link_source h2 d ->
  get_allowed_capabilities h1 d = get_allowed_capabilities h2 d.
Proof. unfold get_allowed_capabilities. by intros ->. Qed.

Lemma source_frames_ext h1 h2 names :
  Forall (fun d => link_source h1 d = link_source h2 d) names ->
  source_frames h1 names = source_frames h2 names.
Proof.
  induction 1 as [|d names Hd _ IH]; [reflexivity|].
  cbn [source_frames]. by rewrite (get_allowed_capabilities_ext _ _ _ Hd), IH.
Qed.

(** X2: with the device names given no discovery is made: the capability
    table depends on the machine only through the outcome of linking the
    named devices, not on the directory listing or the probe. *)
Theorem named_devices_need_no_discovery (h1 h2 : Host) (names : list string) :
  Forall (fun d => link_source h1 d = link_source h2 d) names ->
  get_source_capabilities h1 (Some names) = get_source_capabilities h2 (Some names).
Proof.
  intros Hsame. unfold get_source_capabilities.
  by rewrite !bind_Ok, (source_frames_ext _ _ _ Hsame).
Qed.

Lemma source_frames_skip host names :
  source_frames host names
  = source_frames host
      (List.filter (fun d => has_rows (get_allowed_capabilities host d)) names).
Proof.
  induction names as [|d names IH]; [reflexivity|].
  cbn [source_frames List.filter]. unfold has_rows at 1.
  destruct (bool_decide (length (rows (get_allowed_capabilities host d)) = 0%nat))
    eqn:Hempty; cbn [negb]; [exact IH|].
  cbn [source_frames]. rewrite Hempty, <- IH. reflexivity.
Qed.

(** X3: a device whose capability table has no row, as is the case when its
    source element fails to link, is skipped: the result is the one for the
    device names without it. *)
Theorem rowless_devices_are_skipped (host : Host) (names : list string) :
  get_source_capabilities host (Some names)
  = get_source_capabilities host
      (Some (List.filter
               (fun d => has_rows (get_allowed_capabilities host d)) names))
  /\ forall d, link_source host d = LinkFails ->
               has_rows (get_allowed_capabilities host d) = false.
Proof.
  split.
  - unfold get_source_capabilities. by rewrite !bind_Ok, <- source_frames_skip.
  - intros d Hd. by rewrite (link_fails_no_rows _ _ Hd).
Qed.

End DiscoveryExtras.

(** ** Errors of the normalisation *)

Section ErrorExtras.
Import VideoSource.

Lemma mapM_Raise {A B} (f : A -> result B) (l : list A) (e : exn) :
  (forall x e', f x = Raise e' -> e' = e) ->
  Exists (fun x => is_Ok (f x) = false) l ->
  mapM f l = Raise e.
Proof.
  intros Honly. induction l as [|x l IH]; intros Hex.
  - by apply Exists_nil in Hex.
  - cbn. fold (mapM f l). destruct (f x) as [y|e'] eqn:Hx.
    + apply Exists_cons in Hex as [Hbad|Hex]; [by rewrite Hx in Hbad|].
      cbn. by rewrite (IH Hex).
    + cbn. by rewrite (Honly x e' Hx).
Qed.

Lemma expand_missing_label df label :
  label ∈ caps_labels -> label ∉ columns df ->
  expand_allowed_capabilities df = Raise KeyError.
Proof.
  intros Hlabel Hmissing. unfold expand_allowed_capabilities, Pandas.drop_labels.
  assert (forallb (fun l => bool_decide (l ∈ columns df))
                  ["framerate"; "width"; "height"; "format"] = false) as ->;
    [|reflexivity].
  apply not_true_is_false. intros Hall.
  rewrite forallb_forall in Hall.
  specialize (Hall label (proj1 (list_elem_of_In _ _) Hlabel)).
  by apply bool_decide_eq_true in Hall.
Qed.

Lemma source_frames_rowless host skipped names :
  Forall (fun d => has_rows (get_allowed_capabilities host d) = false) skipped ->
  source_frames host (skipped ++ names) = source_frames host names.
Proof.
  induction 1 as [|d skipped Hd _ IH]; [reflexivity|].
  cbn [app source_frames]. unfold has_rows in Hd.
  apply negb_false_iff in Hd. by rewrite Hd.
Qed.

(** X4: a device with capability rows none of which has one of the fields
    [framerate], [width], [height] and [format] makes the normalisation
    raise [KeyError], and the whole capability table with it, whatever
    devices follow; rowless devices before it do not matter. *)
Theorem missing_field_is_fatal (host : Host) (skipped rest : list string)
    (d label : string) :
  Forall (fun d' => has_rows (get_allowed_capabilities host d') = false)
         skipped ->
  has_rows (get_allowed_capabilities host d) = true ->
  label ∈ caps_labels ->
  label ∉ columns (get_allowed_capabilities host d) ->
  expand_allowed_capabilities (get_allowed_capabilities host d) = Raise KeyError
  /\ get_source_capabilities host (Some (skipped ++ d :: rest))
     = Raise KeyError.
Proof.
  intros Hskipped Hrows Hlabel Hmissing.
  pose proof (expand_missing_label _ _ Hlabel Hmissing) as Hexpand.
  split; [exact Hexpand|].
  unfold get_source_capabilities.
  rewrite bind_Ok, (source_frames_rowless _ _ _ Hskipped).
  cbn [source_frames]. unfold has_rows in Hrows.
  apply negb_true_iff in Hrows. by rewrite Hrows, Hexpand.
Qed.

(** X5: on a table that has the four capability columns, one row whose
    format is not a four-character code (a structure without a format field
    gives such a row) makes the normalisation raise [AttributeError]. *)
Theorem format_without_fourcc_raises (df : DataFrame) :
  Forall (fun l => l ∈ columns df) caps_labels ->
  Exists (fun row =>
            is_Ok (extract_format (lookup_cell (columns df) "format" row))
            = false) (rows df) ->
  expand_allowed_capabilities df = Raise AttributeError.
Proof.
  destruct df as [cols rs]. cbn [columns rows]. intros Hin Hbad.
  rewrite Forall_forall in Hin.
  assert ("format" ∈ cols) as Hformat by (apply Hin; compute_done).
  destruct (col_index_Some _ _ Hformat) as (i_f & Hif & _).
  unfold expand_allowed_capabilities.
  unfold Pandas.drop_labels; cbn [forallb columns rows].
  rewrite !bool_decide_true by (apply Hin; compute_done).
  cbn [andb]. rewrite bind_Ok.
  rewrite (get_column_at _ _ _ _ Hif), bind_Ok.
  rewrite (mapM_Raise extract_format _ AttributeError); [reflexivity| |].
  - intros v e'. destruct v; cbn; congruence.
  - apply Exists_exists in Hbad as (row & Hrow & Hfmt).
    apply Exists_exists. exists (Pandas.cell i_f row). split.
    + apply (list_elem_of_fmap_2 (Pandas.cell i_f)) in Hrow. exact Hrow.
    + by rewrite (lookup_cell_at _ _ _ _ Hif) in Hfmt.
Qed.

End ErrorExtras.

(** ** Shape of the normalised table *)

Section TableExtras.
Import VideoSource.

#[local] Existing Instance tuple_le_total.
#[local] Existing Instance tuple_le_trans.
#[local] Existing Instance tuple_le_antisymm.

Lemma sorted_set_ext l1 l2 :
  (forall x, x ∈ l1 <-> x ∈ l2) -> sorted_set l1 = sorted_set l2.
Proof.
  intros Hsame. apply (Sorted_unique tuple_le).
  - apply Sorted_merge_sort, _.
  - apply Sorted_merge_sort, _.
  - unfold sorted_set. rewrite !merge_sort_Permutation.
    apply NoDup_Permutation; [apply NoDup_remove_dups..|].
    intros x. by rewrite !elem_of_remove_dups.
Qed.

Lemma mapM_fps_tuple_Raise items e :
  mapM fps_tuple items = Raise e ->
  e = AttributeError /\ exists v, v ∈ items /\ fps_tuple v = Raise AttributeError.
Proof.
  induction items as [|v items IH]; cbn; [done|].
  fold (mapM fps_tuple items).
  destruct (fps_tuple v) as [t|e'] eqn:Hv; cbn.
  - destruct (mapM fps_tuple items) as [l|e'']; cbn; [done|].
    intros [= <-]. destruct (IH eq_refl) as (-> & v' & Hv' & Hbad).
    split; [done|]. exists v'. split; [by apply elem_of_cons; right|done].
  - intros [= <-]. assert (e' = AttributeError) as ->
      by (destruct v; cbn in Hv; congruence).
    split; [done|]. exists v. split; [by apply elem_of_cons; left|done].
Qed.

Lemma mapM_fps_tuple_Ok_all items l :
  mapM fps_tuple items = Ok l ->
  forall v, v ∈ items -> exists f, v = VFraction f.
Proof.
  revert l. induction items as [|v items IH]; intros l; cbn.
  - intros _ v' Hv'. by apply elem_of_nil in Hv'.
  - fold (mapM fps_tuple items).
    destruct (fps_tuple v) as [t|] eqn:Hv; [|done]. cbn.
    destruct (mapM fps_tuple items) as [l'|]; [|done]. cbn.
    intros _ v' Hv'. apply elem_of_cons in Hv' as [->|Hv'].
    + destruct v; try discriminate. eauto.
    + by apply (IH l').
Qed.

(** X8: the framerates read from a list depend only on which values the
    list holds, not on their order or repetition (errors included). *)
Theorem framerate_list_is_a_set (items1 items2 : list value) :
  (forall v, v ∈ items1 <-> v ∈ items2) ->
  extract_fps (VList items1) = extract_fps (VList items2).
Proof.
  intros Hsame. unfold extract_fps.
  destruct (mapM fps_tuple items1) as [l1|e1] eqn:H1,
           (mapM fps_tuple items2) as [l2|e2] eqn:H2; cbn.
  - f_equal. apply sorted_set_ext. intros fps.
    by rewrite (mapM_fps_tuple _ _ H1), (mapM_fps_tuple _ _ H2), Hsame.
  - apply mapM_fps_tuple_Raise in H2 as (_ & v & Hv & Hbad).
    apply Hsame in Hv.
    destruct (mapM_fps_tuple_Ok_all _ _ H1 v Hv) as [f ->]. discriminate.
  - apply mapM_fps_tuple_Raise in H1 as (_ & v & Hv & Hbad).
    apply Hsame in Hv.
    destruct (mapM_fps_tuple_Ok_all _ _ H2 v Hv) as [f ->]. discriminate.
  - apply mapM_fps_tuple_Raise in H1 as [-> _].
    apply mapM_fps_tuple_Raise in H2 as [-> _]. reflexivity.
Qed.

(** X9: a framerate range is read as the list of its two end points, and the
    order of the end points does not matter. *)
Theorem range_is_the_list_of_its_endpoints (low high : Fraction) :
  extract_fps (VFractionRange low high)
  = extract_fps (VList [VFraction low; VFraction high])
  /\ extract_fps (VFractionRange low high)
     = extract_fps (VFractionRange high low).
Proof.
  split; [reflexivity|].
  unfold extract_fps. rewrite !bind_Ok. f_equal. apply sorted_set_ext.
  intros x. rewrite !elem_of_cons, !elem_of_nil. tauto.
Qed.

End TableExtras.

(** ** What [extract_fps] returns *)

Section FramerateSetExtras.
Import VideoSource.

(** X26: what [extract_fps] returns is sorted, without duplicates, and holds
    only pairs of fractions of its argument: the fraction itself, the end
    points of a range, or members of a list.  It raises nothing but
    [AttributeError]. *)
Theorem extract_fps_is_sorted_and_distinct (framerate_obj : value) :
  match extract_fps framerate_obj with
  | Ok framerates =>
      NoDup framerates
      /\ StronglySorted tuple_le framerates
      /\ forall fps,
           fps ∈ framerates ->
           exists f,
             fps = (num f, denom f)
             /\ (framerate_obj = VFraction f
                 \/ (exists low high,
                       framerate_obj = VFractionRange low high
                       /\ (f = low \/ f = high))
                 \/ (exists items,
                       framerate_obj = VList items /\ VFraction f ∈ items))
  | Raise e => e = AttributeError
  end.
Proof.
  unfold extract_fps.
  destruct framerate_obj as [|z|x|s|c|lo hi|f|low high|items];
    try (cbn; reflexivity).
  - destruct (decide (s = "")); cbn; [|reflexivity].
    split; [apply NoDup_nil_2|]. split; [constructor|].
    intros fps Hin. by apply elem_of_nil in Hin.
  - cbn [fps_tuple]. rewrite !bind_Ok.
    split; [apply NoDup_sorted_set|]. split; [apply Sorted_sorted_set|].
    intros fps Hin. apply (proj1 (elem_of_sorted_set _ _)), list_elem_of_singleton in Hin.
    exists f. split; [done|by left].
  - rewrite bind_Ok.
    split; [apply NoDup_sorted_set|]. split; [apply Sorted_sorted_set|].
    intros fps Hin. apply (proj1 (elem_of_sorted_set _ _)) in Hin.
    rewrite !elem_of_cons, elem_of_nil in Hin.
    destruct Hin as [->|[->|[]]]; [exists low|exists high];
      (split; [done|right; left; exists low, high; split; [done|tauto]]).
  - destruct (mapM fps_tuple items) as [l|e] eqn:Hitems.
    + rewrite bind_Ok.
      split; [apply NoDup_sorted_set|]. split; [apply Sorted_sorted_set|].
      intros fps Hin. apply (proj1 (elem_of_sorted_set _ _)) in Hin.
      apply (mapM_fps_tuple _ _ Hitems) in Hin.
      exists (mkFraction fps.1 fps.2). split; [by destruct fps|].
      right; right. by exists items.
    + cbn. clear -Hitems. revert e Hitems.
      induction items as [|v items IH]; intros e; cbn; [done|].
      fold (mapM fps_tuple items).
      destruct (fps_tuple v) as [t|e'] eqn:Hv; cbn.
      * destruct (mapM fps_tuple items) as [l|e'']; cbn; [done|].
        intros [= <-]. by apply IH.
      * intros [= <-]. destruct v; cbn in Hv; congruence.
Qed.

End FramerateSetExtras.

(** ** From structures to the capability table *)

Section AllowedCapsExtras.
Import VideoSource.

Lemma dict_get_set_same k v d : Pandas.dict_get k (Pandas.dict_set k v d) = Some v.
Proof.
  induction d as [|[k' v'] d IH]; cbn.
  - by rewrite decide_True.
  - destruct (decide (k' = k)) as [->|Hne]; cbn.
    + by rewrite decide_True.
    + by rewrite decide_False.
Qed.

Lemma dict_get_last pairs k v :
  Pandas.dict_get k (Pandas.dict (pairs ++ [(k, v)])) = Some v.
Proof.
  unfold Pandas.dict. rewrite foldl_app. cbn. apply dict_get_set_same.
Qed.

Lemma record_row_lookup cols (cell_of : string -> value) label :
  label ∈ cols ->
  lookup_cell cols label (map cell_of cols) = cell_of label.
Proof.
  intros Hin. destruct (col_index_Some _ _ Hin) as (i & Hi & Hnth).
  unfold lookup_cell. rewrite Hi. by rewrite (cell_map _ _ _ _ Hnth).
Qed.

Lemma from_records_columns records label :
  label ∈ columns (Pandas.from_records records)
  <-> exists record, record ∈ records /\ label ∈ record.*1.
Proof.
  cbn. unfold Pandas.union_labels.
  rewrite elem_of_reverse, elem_of_remove_dups, elem_of_reverse,
    list_elem_of_In, in_concat. split.
  - intros (keys & Hkeys & Hlabel). apply in_map_iff in Hkeys as (r & <- & Hr).
    exists r. by rewrite !list_elem_of_In.
  - intros (r & Hr & Hlabel). exists (r.*1). split.
    + apply in_map_iff. exists r. by rewrite <- list_elem_of_In.
    + by apply list_elem_of_In.
Qed.

Lemma allowed_capabilities_labels host device_name :
  NoDup (columns (get_allowed_capabilities host device_name))
  /\ Forall (fun row =>
               length row
               = length (columns (get_allowed_capabilities host device_name)))
            (rows (get_allowed_capabilities host device_name)).
Proof.
  unfold get_allowed_capabilities. split.
  { cbn [columns Pandas.from_records]. unfold Pandas.union_labels.
    rewrite reverse_Permutation. apply NoDup_remove_dups. }
  cbn. apply Forall_forall. intros row Hrow.
  apply list_elem_of_fmap in Hrow as (r & -> & _). by rewrite length_map.
Qed.

Lemma allowed_capabilities_columns caps label :
  label ∈ columns (Pandas.from_records (map caps_record caps))
  <-> exists c, c ∈ caps /\ (label = "name" \/ label ∈ (fields c).*1).
Proof.
  rewrite from_records_columns. split.
  - intros (r & Hr & Hlabel). apply list_elem_of_fmap in Hr as (c & -> & Hc).
    exists c. split; [done|]. unfold caps_record in Hlabel.
    apply (proj1 (dict_keys _ _)) in Hlabel.
    rewrite fmap_app, elem_of_app in Hlabel.
    destruct Hlabel as [?|Hl]; [by right|left].
    by apply list_elem_of_singleton in Hl.
  - intros (c & Hc & Hlabel). exists (caps_record c).
    split; [by apply list_elem_of_fmap_2|].
    unfold caps_record. apply dict_keys. rewrite fmap_app, elem_of_app.
    destruct Hlabel as [->|?]; [right|by left].
    by apply list_elem_of_singleton.
Qed.

(** X10: the capability table of a device has distinct labels and full
    rows; it is the empty table when the link fails, and otherwise has one
    row per structure, in order, with the structure name under [name], and
    as columns [name] and the fields of all structures. *)
Theorem allowed_capabilities_table (host : Host) (device_name : string) :
  let df := get_allowed_capabilities host device_name in
  NoDup (columns df)
  /\ Forall (fun row => length row = length (columns df)) (rows df)
  /\ match link_source host device_name with
     | LinkFails => df = empty_frame
     | Linked caps =>
         map (lookup_cell (columns df) "name") (rows df)
         = map (fun c => VStr (struct_name c)) caps
         /\ forall label,
              label ∈ columns df
              <-> exists c, c ∈ caps
                            /\ (label = "name" \/ label ∈ (fields c).*1)
     end.
Proof.
  cbv zeta.
  destruct (allowed_capabilities_labels host device_name) as [Hnd Hlen].
  split; [exact Hnd|]. split; [exact Hlen|].
  unfold get_allowed_capabilities.
  destruct (link_source host device_name) as [|caps]; [reflexivity|].
  split; [|apply allowed_capabilities_columns].
  set (df := Pandas.from_records (map caps_record caps)) in *.
  set (cell_of := fun (l : string) (d : list (string * value)) =>
                    default VNaN (Pandas.dict_get l d)).
  set (float64 := fun l : string =>
                    Pandas.is_float64 (map (cell_of l) (map caps_record caps))).
  assert (rows df
          = map (fun c => map (fun l => if float64 l
                                        then Pandas.to_float64
                                               (cell_of l (caps_record c))
                                        else cell_of l (caps_record c))
                              (columns df)) caps) as ->
    by (cbn; by rewrite map_map).
  rewrite map_map. apply map_ext_in.
  intros c Hc.
  rewrite (record_row_lookup (columns df)
             (fun l => if float64 l
                       then Pandas.to_float64 (cell_of l (caps_record c))
                       else cell_of l (caps_record c))).
  - unfold cell_of, caps_record. rewrite dict_get_last. cbn.
    by destruct (float64 "name").
  - apply allowed_capabilities_columns. exists c.
    split; [by apply list_elem_of_In|by left].
Qed.

End AllowedCapsExtras.

(** ** Structure of the pipeline *)

Section PipelineExtras.
Import VideoPipeline.

Variable platform_system : string.
Variable video_source : Element.
Variable bitrate : option Z.
Variable output_path : option string.
Variable draw_queue : option DrawQueue.
Variables with_scale with_warp : bool.
Variable on_frame_grabbed : option string.

Let p := get_pipeline platform_system video_source bitrate output_path
           draw_queue with_scale with_warp on_frame_grabbed.
Let stages := display_stages draw_queue with_scale with_warp on_frame_grabbed.
Let capture := truthy_int bitrate && truthy_str output_path.

Lemma pipeline_names :
  map name (elements p) = name video_source :: created_names stages capture.
Proof.
  unfold p, stages, capture, created_names. rewrite get_pipeline_capture.
  cbv zeta. destruct (truthy_int bitrate && truthy_str output_path).
  - unfold with_capture. cbn [elements]. rewrite map_app, display_elements.
    cbn. by rewrite <- ?app_assoc.
  - rewrite display_elements. cbn. by rewrite ?app_nil_r.
Qed.

Lemma pipeline_links :
  links p = (name video_source, "video_rate") :: created_links stages capture.
Proof.
  unfold p, stages, capture, created_links. rewrite get_pipeline_capture.
  cbv zeta. destruct (truthy_int bitrate && truthy_str output_path).
  - unfold with_capture. cbn [links]. rewrite display_links.
    cbn. by rewrite <- ?app_assoc.
  - rewrite display_links. cbn. by rewrite ?app_nil_r.
Qed.

Lemma stages_cases (P : list string -> Prop) :
  (forall grab scale warp draw : bool,
     P ((if grab then ["grab_frame_color_in"; "grab_frame";
                       "grab_frame_color_out"] else [])
        ++ (if scale then ["video_scale"; "video_scale_caps_filter"] else [])
        ++ (if warp then ["warp_bin"] else [])
        ++ (if draw then ["cairo_color_in"; "cairo_draw"; "cairo_color_out"]
            else []))) ->
  P stages.
Proof. intros HP. apply HP. Qed.

(** X12: when the source element does not bear a name the function uses,
    the elements of the pipeline have distinct names. *)
Theorem element_names_are_distinct :
  name video_source ∉ reserved_names ->
  NoDup (map name (elements p)).
Proof.
  intros Hsrc. rewrite pipeline_names. apply NoDup_cons. split.
  - intros Hin. apply Hsrc. revert Hin. generalize (name video_source).
    apply Forall_forall. apply stages_cases.
    intros [] [] [] []; destruct capture; compute_done.
  - apply stages_cases. intros [] [] [] []; destruct capture; compute_done.
Qed.

(** X13: every link joins two elements that were added to the pipeline, no
    element is linked to twice, and every element but the source is linked
    to. *)
Theorem links_join_added_elements :
  Forall (fun l => l.1 ∈ map name (elements p) /\ l.2 ∈ map name (elements p))
         (links p)
  /\ NoDup (map snd (links p))
  /\ (forall n, n ∈ map name (elements p) ->
                n = name video_source \/ n ∈ map snd (links p)).
Proof.
  rewrite pipeline_names, pipeline_links. cbn [map fst snd].
  split; [|split].
  - apply Forall_cons. split.
    + split; [apply list_elem_of_here|].
      apply list_elem_of_further, list_elem_of_here.
    + eapply Forall_impl with
        (P := fun l => l.1 ∈ created_names stages capture
                       /\ l.2 ∈ created_names stages capture).
      * apply stages_cases. intros [] [] [] []; destruct capture; compute_done.
      * intros l [H1 H2]. split; by apply list_elem_of_further.
  - apply stages_cases. intros [] [] [] []; destruct capture; compute_done.
  - intros n Hn. apply elem_of_cons in Hn as [->|Hn]; [by left|right].
    revert n Hn. apply Forall_forall.
    apply stages_cases. intros [] [] [] []; destruct capture; compute_done.
Qed.

(** X14: only the tee feeds more than one element: two with a capture
    branch, one without.  Nothing feeds the source, and the elements that
    feed nothing are the two sinks. *)
Theorem fan_out_only_at_the_tee :
  name video_source ∉ reserved_names ->
  NoDup (List.filter (fun n => bool_decide (n <> "video_tee"))
                     (map fst (links p)))
  /\ length (List.filter (fun n => bool_decide (n = "video_tee"))
                         (map fst (links p)))
     = (if capture then 2 else 1)%nat
  /\ (name video_source ∉ map snd (links p))
  /\ (forall n, n ∈ map name (elements p) ->
                (n ∈ map fst (links p)
                 <-> (n <> "video_sink" /\ n <> "file_sink"))).
Proof.
  intros Hsrc.
  assert (forall n, n ∈ reserved_names -> name video_source <> n) as Hne
    by (intros n Hn Heq; apply Hsrc; by rewrite Heq).
  assert (name video_source <> "video_tee") as Htee
    by (apply Hne; compute_done).
  assert (name video_source <> "video_sink") as Hsink
    by (apply Hne; compute_done).
  assert (name video_source <> "file_sink") as Hfile
    by (apply Hne; compute_done).
  rewrite pipeline_names, pipeline_links. cbn [map fst snd List.filter].
  rewrite bool_decide_true, bool_decide_false by done.
  split; [|split; [|split]].
  - apply NoDup_cons. split.
    + intros Hin. apply Hsrc. apply list_elem_of_In, filter_In in Hin as [Hin _].
      apply list_elem_of_In in Hin. revert Hin. generalize (name video_source).
      apply Forall_forall. apply stages_cases.
      intros [] [] [] []; destruct capture; compute_done.
    + apply stages_cases. intros [] [] [] []; destruct capture; compute_done.
  - apply stages_cases. intros [] [] [] []; destruct capture; compute_done.
  - intros Hin. apply list_elem_of_further with (y := "video_rate") in Hin.
    apply Hsrc. revert Hin. generalize (name video_source).
    apply Forall_forall. apply stages_cases.
    intros [] [] [] []; destruct capture; compute_done.
  - intros n Hn. apply elem_of_cons in Hn as [->|Hn].
    + split; [done|]. intros _. apply list_elem_of_here.
    + rewrite elem_of_cons.
      assert (n ∈ map fst (created_links stages capture)
              <-> n <> "video_sink" /\ n <> "file_sink") as <-.
      { revert n Hn. apply Forall_forall. apply stages_cases.
        intros [] [] [] []; destruct capture; compute_done. }
      split; [|by right]. intros [->|?]; [|done].
      exfalso. apply Hsrc. revert Hn. generalize (name video_source).
      apply Forall_forall. apply stages_cases.
      intros [] [] [] []; destruct capture; compute_done.
Qed.

End PipelineExtras.

Section PlatformExtras.
Import VideoPipeline.

Lemma display_platform_independent platform1 platform2 video_source
    draw_queue with_scale with_warp on_frame_grabbed :
  get_pipeline platform1 video_source None None draw_queue with_scale
               with_warp on_frame_grabbed
  = get_pipeline platform2 video_source None None draw_queue with_scale
                 with_warp on_frame_grabbed.
Proof.
  destruct draw_queue as [[r []]|], with_scale, with_warp, on_frame_grabbed;
    reflexivity.
Qed.

Lemma elem_of_zip_same {A} (l : list A) (x y : A) :
  (x, y) ∈ zip l l -> x = y.
Proof.
  induction l as [|a l IH]; cbn; [by rewrite elem_of_nil|].
  rewrite elem_of_cons. intros [[= -> ->]|Hin]; [done|by apply IH].
Qed.

(** X15: the platform changes nothing but the encoder element: links, names
    and properties agree on any two platforms, the pipelines are equal
    without a capture branch, and equal on any two platforms that are not
    Linux. *)
Theorem platform_selects_only_the_encoder (platform1 platform2 : string)
    (video_source : Element) (bitrate : option Z)
    (output_path : option string) (draw_queue : option DrawQueue)
    (with_scale with_warp : bool) (on_frame_grabbed : option string) :
  let p1 := get_pipeline platform1 video_source bitrate output_path
              draw_queue with_scale with_warp on_frame_grabbed in
  let p2 := get_pipeline platform2 video_source bitrate output_path
              draw_queue with_scale with_warp on_frame_grabbed in
  links p1 = links p2
  /\ map name (elements p1) = map name (elements p2)
  /\ map properties (elements p1) = map properties (elements p2)
  /\ (forall e1 e2, (e1, e2) ∈ zip (elements p1) (elements p2) ->
                    e1 = e2 \/ name e1 = "ffenc_mpeg40")
  /\ (truthy_int bitrate && truthy_str output_path = false -> p1 = p2)
  /\ (platform1 <> "Linux" -> platform2 <> "Linux" -> p1 = p2).
Proof.
  cbv zeta.
  rewrite (get_pipeline_capture platform1 video_source bitrate output_path),
    (get_pipeline_capture platform2 video_source bitrate output_path).
  cbv zeta. rewrite (display_platform_independent platform1 platform2).
  set (display := get_pipeline platform2 video_source None None draw_queue
                    with_scale with_warp on_frame_grabbed).
  destruct (truthy_int bitrate && truthy_str output_path).
  2:{ repeat split; try done. intros e1 e2 Hin. left.
      by apply elem_of_zip_same in Hin. }
  unfold with_capture, capture_elements. cbn [links elements].
  rewrite !map_app. cbn [map name properties].
  split; [done|]. split; [done|]. split; [done|]. split; [|split; [done|]].
  - intros e1 e2 Hin.
    rewrite zip_with_app in Hin by done.
    apply elem_of_app in Hin as [Hin|Hin].
    + left. by apply elem_of_zip_same in Hin.
    + cbn in Hin. rewrite !elem_of_cons, elem_of_nil in Hin.
      decompose [or] Hin; try done;
        match goal with H : (_, _) = (_, _) |- _ => injection H as -> -> end;
        auto.
  - intros H1 H2. by rewrite !decide_False by done.
Qed.

End PlatformExtras.

Section FramerateExtras.
Import VideoSource.

(** X16: [get_framerate] reads the framerate of the first structure only,
    and only a single fraction, for which it agrees with [extract_fps];
    without a structure it raises [IndexError], without a framerate field
    [KeyError], and on a range or a list [AttributeError]. *)
Theorem get_framerate_reads_a_single_fraction
    (src_caps : list (list (string * value))) :
  match src_caps with
  | [] => VideoPipeline.get_framerate src_caps = Raise IndexError
  | first :: _ =>
      match Pandas.dict_get "framerate" first with
      | None => VideoPipeline.get_framerate src_caps = Raise KeyError
      | Some (VFraction f) =>
          VideoPipeline.get_framerate src_caps = Ok [("num", num f); ("denom", denom f)]
          /\ extract_fps (VFraction f) = Ok [(num f, denom f)]
      | Some _ =>
          VideoPipeline.get_framerate src_caps = Raise AttributeError
      end
  end.
Proof.
  destruct src_caps as [|first rest]; [reflexivity|].
  unfold VideoPipeline.get_framerate. cbn [CairoDraw.caps_item].
  destruct (Pandas.dict_get "framerate" first) as [[]|]; try reflexivity.
  split; reflexivity.
Qed.

End FramerateExtras.

(** ** Outcomes of the transform *)

Section CairoExtras.
Import Drawing CairoDraw.




(** X18: the transform of a [CairoDrawQueue] element does nothing without a
    truthy draw queue; with one it logs a surface failure and returns
    [FLOW_OK], or else does what [render] of the queue does, returning
    [FLOW_OK] when [render] returns and raising what [render] raises. *)
Theorem queue_transform_outcomes name (queue : option DrawQueue) buf w :
  let self := mkElement name RenderDrawQueue queue in
  let r := do_transform_ip self buf w in
  match queue with
  | None => r = (Ok FLOW_OK, w)
  | Some dq =>
      if dq_bool dq then
        match acquire false buf with
        | Raise _ =>
            r = (Ok FLOW_OK,
                 mkWorld (stdout w
                          ++ ["Failed to create cairo surface for buffer";
                              "Traceback"])
                         (issued w))
        | Ok _ =>
            match render dq (cairo buf) w with
            | (Ok _, w') => r = (Ok FLOW_OK, w')
            | (Raise e, w') => r = (Raise e, w')
            end
        end
      else r = (Ok FLOW_OK, w)
  end.
Proof.
  cbv zeta. unfold do_transform_ip, render_draw_queue. cbn [draw_func draw_queue].
  destruct queue as [dq|]; [|reflexivity].
  destruct (dq_bool dq); [|reflexivity].
  unfold try_except, lift, mbind, M_bind, mret, M_ret.
  destruct (acquire false buf) as [size|e]; cbn.
  - by destruct (render dq (cairo buf) w) as [[[]|e] w'].
  - by rewrite <- app_assoc.
Qed.

(** X19: the two draw functions acquire the surface alike, except that
    [draw_on] also reads the framerate: it succeeds only where
    [render_draw_queue] succeeds with the same size, and fails with another
    outcome only on the lookup of the framerate. *)
Theorem surface_acquisition_differs_by_framerate buf :
  match acquire true buf with
  | Ok size => acquire false buf = Ok size
  | Raise e =>
      acquire false buf = Raise e
      \/ exists caps, get_caps buf = Ok caps
                      /\ caps_item caps "framerate" = Raise e
  end.
Proof.
  unfold acquire. destruct (get_caps buf) as [caps|e]; cbn; [|by left].
  destruct (caps_item caps "width") as [width|e]; cbn; [|by left].
  destruct (caps_item caps "height") as [height|e]; cbn; [|by left].
  destruct (caps_item caps "framerate") as [framerate|e] eqn:Hfr; cbn.
  - destruct (as_int width) as [wd|e]; cbn; [|by left].
    destruct (as_int height) as [h|e]; cbn; [|by left].
    destruct (create_context (cairo buf) wd h (4 * wd)) as [[]|e]; cbn;
      [done|by left].
  - right. by exists caps.
Qed.

(** X20: [draw_on] and [other_draw_on] need a framerate they do not use: on
    a buffer whose first structure has none they log a surface failure and
    draw nothing, while [render_draw_queue] acquires the surface of the same
    buffer when width and height are integers and Cairo accepts them. *)
Theorem default_drawing_needs_a_framerate name (default_draw_func : bool)
    buf w first rest :
  get_caps buf = Ok (first :: rest) ->
  Pandas.dict_get "framerate" first = None ->
  do_transform_ip (CairoDrawBase name default_draw_func) buf w
  = (Ok FLOW_OK,
     mkWorld (stdout w ++ ["Failed to create cairo surface for buffer";
                           "Traceback"])
             (issued w))
  /\ forall width height,
       Pandas.dict_get "width" first = Some (VInt width) ->
       Pandas.dict_get "height" first = Some (VInt height) ->
       create_context (cairo buf) width height (4 * width) = Ok tt ->
       acquire false buf = Ok (width, height).
Proof.
  intros Hcaps Hfr.
  assert (exists e, acquire true buf = Raise e) as [e He].
  { unfold acquire. rewrite Hcaps. cbn.
    destruct (Pandas.dict_get "width" first); cbn; [|by eexists].
    destruct (Pandas.dict_get "height" first); cbn; [|by eexists].
    rewrite Hfr. cbn. by eexists. }
  split; [by apply (base_surface_failure name default_draw_func buf w e)|].
  intros width height Hwidth Hheight Hcreate.
  unfold acquire. rewrite Hcaps. cbn. rewrite Hwidth, Hheight. cbn.
  by rewrite Hcreate.
Qed.

End CairoExtras.

(** ** Logging helpers *)

Section LoggingExtras.
Import LoggingHelpers.

Lemma list_remove_head h l : list_remove h (h :: l) = l.
Proof. cbn. by rewrite decide_True. Qed.

Lemma remove_all_handlers l lvl :
  foldl (fun r h => removeHandler h r) (mkRootLogger l lvl) l
  = mkRootLogger [] lvl.
Proof.
  induction l as [|h l IH]; [reflexivity|].
  cbn [foldl]. unfold removeHandler at 2. cbn [handlers level].
  rewrite bool_decide_true by apply list_elem_of_here.
  by rewrite list_remove_head.
Qed.

Lemma add_handlers_back l acc lvl :
  NoDup (acc ++ l) ->
  foldl (fun r h => addHandler h r) (mkRootLogger acc lvl) l
  = mkRootLogger (acc ++ l) lvl.
Proof.
  revert acc. induction l as [|h l IH]; intros acc Hnd; cbn [foldl].
  - by rewrite app_nil_r.
  - unfold addHandler at 2. cbn [handlers level].
    apply NoDup_app in Hnd as Hparts. destruct Hparts as (_ & Hdisj & _).
    rewrite bool_decide_false.
    + rewrite IH; rewrite <- app_assoc; done.
    + intros Hin. apply (Hdisj h Hin). apply list_elem_of_here.
Qed.

Lemma effective_level root : getEffectiveLevel root = level root.
Proof.
  unfold getEffectiveLevel. destruct (level root =? 0) eqn:Hz; [|done].
  by apply Z.eqb_eq in Hz.
Qed.

(** X21: when the body of the [with] block returns, the handlers (no
    handler being registered twice) and the level of the root logger are
    again what they were on entry, whatever the body did to them; with
    [clear_handlers] the body starts without handlers, at the same
    level. *)
Theorem logging_restore_restores (clear_handlers : bool)
    (body : RootLogger -> result unit * RootLogger) (root inside : RootLogger) :
  NoDup (handlers root) ->
  body (if clear_handlers then mkRootLogger [] (level root) else root)
    = (Ok tt, inside) ->
  logging_restore clear_handlers body root = (Ok tt, root).
Proof.
  intros Hnd Hbody. unfold logging_restore. cbv zeta.
  destruct root as [hs lvl]. cbn [handlers level] in *.
  assert ((if clear_handlers
           then foldl (fun r h => removeHandler h r) (mkRootLogger hs lvl) hs
           else mkRootLogger hs lvl)
          = (if clear_handlers then mkRootLogger [] lvl else mkRootLogger hs lvl))
    as -> by (destruct clear_handlers; [apply remove_all_handlers|done]).
  rewrite Hbody. destruct inside as [hs' lvl'].
  cbn [handlers]. rewrite remove_all_handlers.
  rewrite (add_handlers_back hs [] lvl') by done.
  rewrite effective_level. reflexivity.
Qed.

(** X22: when the body of the [with] block raises, nothing is restored: the
    exception leaves the block and the root logger stays as the body left
    it (without the handlers of the entry, if they were cleared). *)
Theorem logging_restore_skipped_on_exception (clear_handlers : bool)
    (body : RootLogger -> result unit * RootLogger) (root inside : RootLogger)
    (e : exn) :
  body (if clear_handlers then mkRootLogger [] (level root) else root)
    = (Raise e, inside) ->
  logging_restore clear_handlers body root = (Raise e, inside).
Proof.
  intros Hbody. unfold logging_restore. cbv zeta.
  destruct root as [hs lvl]. cbn [handlers level] in *.
  assert ((if clear_handlers
           then foldl (fun r h => removeHandler h r) (mkRootLogger hs lvl) hs
           else mkRootLogger hs lvl)
          = (if clear_handlers then mkRootLogger [] lvl else mkRootLogger hs lvl))
    as -> by (destruct clear_handlers; [apply remove_all_handlers|done]).
  by rewrite Hbody.
Qed.

Lemma py_index_nat {A} (l : list A) (k : nat) (x : A) :
  l !! k = Some x -> py_index l (0 + Z.of_nat k) = Ok x.
Proof.
  intros Hnth. pose proof (lookup_lt_Some _ _ _ Hnth) as Hlt.
  unfold py_index. cbv zeta.
  destruct (0 + Z.of_nat k <? 0) eqn:Hneg; [apply Z.ltb_lt in Hneg; lia|].
  cbn [orb].
  destruct (Z.of_nat (length l) <=? 0 + Z.of_nat k) eqn:Hhigh;
    [apply Z.leb_le in Hhigh; lia|].
  replace (Z.to_nat (0 + Z.of_nat k)) with k by lia.
  rewrite Hnth, Hneg. reflexivity.
Qed.

Lemma caller_name_frame (skip : Z) (stack : list Frame) (frame : Frame) :
  (Z.of_nat (length stack) <? 0 + skip + 1) = false ->
  py_index stack (0 + skip) = Ok frame ->
  caller_name skip stack
  = match module_name frame with
    | None => Raise KeyError
    | Some module =>
        Ok (join_dots
              ([module]
               ++ match self_class frame with Some c => [c] | None => [] end
               ++ (if decide (co_name frame = "<module>") then []
                   else [co_name frame])))
    end.
Proof.
  intros Hshort Hframe. unfold caller_name. cbv zeta.
  rewrite Hshort, Hframe, bind_Ok.
  destruct (module_name frame) as [module|]; [|reflexivity].
  rewrite bind_Ok.
  destruct (self_class frame), (decide (co_name frame <> "<module>")),
    (decide (co_name frame = "<module>")); done.
Qed.

Lemma caller_name_at (skip : nat) (stack : list Frame) :
  caller_name (Z.of_nat skip) stack
  = match stack !! skip with
    | None => Ok ""
    | Some frame =>
        match module_name frame with
        | None => Raise KeyError
        | Some module =>
            Ok (join_dots
                  ([module]
                   ++ match self_class frame with Some c => [c] | None => [] end
                   ++ (if decide (co_name frame = "<module>") then []
                       else [co_name frame])))
        end
    end.
Proof.
  destruct (stack !! skip) as [frame|] eqn:Hnth.
  - pose proof (lookup_lt_Some _ _ _ Hnth) as Hlt.
    apply caller_name_frame; [apply Z.ltb_ge; lia|by apply py_index_nat].
  - apply lookup_ge_None in Hnth. unfold caller_name. cbv zeta.
    destruct (Z.of_nat (length stack) <? 0 + Z.of_nat skip + 1) eqn:Hshort;
      [done|apply Z.ltb_ge in Hshort; lia].
Qed.

(** X23: for a skip that is not negative, [caller_name] names the frame
    that many levels above its caller: module, class of [self] if there is
    one, and function unless at top level, joined by dots.  It returns the
    empty string when the stack is not that high, and raises [KeyError] for
    a frame whose globals have no [__name__].  [_L(skip)] is the logger of
    the name [caller_name(skip)] gives at the place of the call. *)
Theorem caller_name_bounds (skip : nat) (stack : list Frame) :
  caller_name (Z.of_nat skip) stack
  = match stack !! skip with
    | None => Ok ""
    | Some frame =>
        match module_name frame with
        | None => Raise KeyError
        | Some module =>
            Ok (join_dots
                  ([module]
                   ++ match self_class frame with Some c => [c] | None => [] end
                   ++ (if decide (co_name frame = "<module>") then []
                       else [co_name frame])))
        end
    end
  /\ forall this_module,
       _L this_module (Z.of_nat skip) stack
       = caller_name (Z.of_nat skip) stack.
Proof.
  split; [apply caller_name_at|].
  intros this_module. unfold _L.
  replace (Z.of_nat skip + 1) with (Z.of_nat (S skip)) by lia.
  by rewrite !caller_name_at.
Qed.

(** X24: a negative skip is not refused: it counts from the outermost frame
    of the stack, and raises [IndexError] when it goes beyond the height of
    the stack. *)
Theorem negative_skip_counts_from_the_outermost_frame (k : nat)
    (stack : list Frame) :
  caller_name (- Z.of_nat (S k)) stack
  = if decide (S k <= length stack)%nat
    then caller_name (Z.of_nat (length stack - S k)) stack
    else Raise IndexError.
Proof.
  assert ((Z.of_nat (length stack) <? 0 + - Z.of_nat (S k) + 1) = false)
    as Hshort by (apply Z.ltb_ge; lia).
  destruct (decide (S k <= length stack)%nat) as [Hle|Hgt].
  - destruct (stack !! (length stack - S k)%nat) as [frame|] eqn:Hnth;
      [|apply lookup_ge_None in Hnth; lia].
    rewrite caller_name_at, Hnth. apply caller_name_frame; [exact Hshort|].
    unfold py_index. cbv zeta.
    destruct (0 + - Z.of_nat (S k) <? 0) eqn:Hneg;
      [|apply Z.ltb_ge in Hneg; lia].
    destruct (0 + - Z.of_nat (S k) + Z.of_nat (length stack) <? 0) eqn:Hlow;
      [apply Z.ltb_lt in Hlow; lia|].
    destruct (Z.of_nat (length stack)
              <=? 0 + - Z.of_nat (S k) + Z.of_nat (length stack)) eqn:Hhigh;
      [apply Z.leb_le in Hhigh; lia|].
    cbn [orb].
    replace (Z.to_nat (0 + - Z.of_nat (S k) + Z.of_nat (length stack)))
      with (length stack - S k)%nat by lia.
    by rewrite Hnth.
  - unfold caller_name. cbv zeta. rewrite Hshort.
    unfold py_index. cbv zeta.
    destruct (0 + - Z.of_nat (S k) <? 0) eqn:Hneg;
      [|apply Z.ltb_ge in Hneg; lia].
    destruct (0 + - Z.of_nat (S k) + Z.of_nat (length stack) <? 0) eqn:Hlow;
      [reflexivity|apply Z.ltb_ge in Hlow; lia].
Qed.
End LoggingExtras.

(** ** Three-valued flags *)

Section TroolExtras.
Import FlatlandOut.

Lemma lower_ascii_idemp a : lower_ascii (lower_ascii a) = lower_ascii a.
Proof. destruct a as [[] [] [] [] [] [] [] []]; reflexivity. Qed.

Lemma lower_idemp s : lower (lower s) = lower s.
Proof. induction s as [|a s IH]; cbn; [done|]. by rewrite lower_ascii_idemp, IH. Qed.

Lemma lower_ascii_not_upper a :
  lower_ascii a <> Ascii.ascii_of_nat 84 /\ lower_ascii a <> Ascii.ascii_of_nat 70.
Proof. destruct a as [[] [] [] [] [] [] [] []]; split; discriminate. Qed.

Lemma lower_not_capitalised s : lower s <> "True" /\ lower s <> "False".
Proof.
  destruct s as [|a s]; [split; discriminate|]. cbn.
  destruct (lower_ascii_not_upper a) as [HT HF].
  split; intros Heq; injection Heq as Ha _; done.
Qed.

(** X25: [parse_trool] gives [True] for the constant [True] and for a text
    that lowered is one of [1], [true], [t], [on], [yes]; it gives [False]
    for the constant [False] and for a text that lowered is one of [0],
    [false], [nil], [off], [no]; everything else gives [Maybe].  Parsing a
    result again changes nothing, and the case of the letters does not
    matter. *)
Theorem parse_trool_table (value : py_value) :
  (parse_trool value = TTrue <->
     value = PTrool TTrue
     \/ exists s, text_of value = Some s
                  /\ lower s ∈ ["1"; "true"; "t"; "on"; "yes"])
  /\ (parse_trool value = TFalse <->
     value = PTrool TFalse
     \/ exists s, text_of value = Some s
                  /\ lower s ∈ ["0"; "false"; "nil"; "off"; "no"])
  /\ parse_trool (PTrool (parse_trool value)) = parse_trool value
  /\ (forall s, parse_trool (PText (lower s)) = parse_trool (PText s)
                /\ parse_trool (POther s) = parse_trool (PText s)).
Proof.
  assert (forall s,
            (lower s ∈ YES <-> lower s ∈ ["1"; "true"; "t"; "on"; "yes"])
            /\ (lower s ∈ NO <-> lower s ∈ ["0"; "false"; "nil"; "off"; "no"])
            /\ (lower s ∈ YES -> lower s ∈ NO -> False)) as Hsets.
  { intros s. destruct (lower_not_capitalised s) as [HT HF].
    unfold YES, NO. rewrite !list_elem_of_In. cbn [In].
    repeat split; intros; intuition congruence. }
  assert (forall s,
            (parse_trool (PText s) = TTrue <-> lower s ∈ YES)
            /\ (parse_trool (PText s) = TFalse <-> lower s ∈ NO)) as Htext.
  { intros s. destruct (Hsets s) as (_ & _ & Hdisj). cbn.
    destruct (bool_decide (lower s ∈ YES)) eqn:Hy.
    - apply bool_decide_eq_true in Hy. split; split; try done.
      intros Hn. destruct (Hdisj Hy Hn).
    - apply bool_decide_eq_false in Hy.
      destruct (bool_decide (lower s ∈ NO)) eqn:Hn.
      + apply bool_decide_eq_true in Hn. split; split; done.
      + apply bool_decide_eq_false in Hn.
        split; split; try done; by destruct (bool_decide _). }
  repeat split.
  - destruct value as [t|s|s]; cbn [text_of].
    + intros Ht; left; cbn in Ht; by subst.
    + intros Ht. right. exists s. split; [done|].
      apply (Hsets s), (Htext s), Ht.
    + intros Ht. right. exists s. split; [done|].
      apply (Hsets s), (Htext s), Ht.
  - intros [->|(s & Hs & Hin)]; [done|].
    destruct value as [t|s'|s']; cbn [text_of] in Hs; [done| |];
      injection Hs as ->; apply (Htext s), (Hsets s), Hin.
  - destruct value as [t|s|s]; cbn [text_of].
    + intros Ht; left; cbn in Ht; by subst.
    + intros Ht. right. exists s. split; [done|].
      apply (Hsets s), (Htext s), Ht.
    + intros Ht. right. exists s. split; [done|].
      apply (Hsets s), (Htext s), Ht.
  - intros [->|(s & Hs & Hin)]; [done|].
    destruct value as [t|s'|s']; cbn [text_of] in Hs; [done| |];
      injection Hs as ->; apply (Htext s), (Hsets s), Hin.
  - cbn. by rewrite lower_idemp.
Qed.
End TroolExtras.

(** ** The further properties at concrete inputs *)

Section ExtraInstances.

Import VideoSource.

Lemma discovery_off_linux_witness :
  platform_system windows_without_camera <> "Linux"
  /\ get_source_capabilities windows_without_camera None = Raise DeviceNotFound.
Proof.
  assert (platform_system windows_without_camera <> "Linux") as H by discriminate.
  split; [exact H|].
  pose proof (discovery_off_linux windows_without_camera H) as Hd.
  cbn in Hd. exact (proj2 (proj2 Hd)).
Defined.

Lemma named_devices_need_no_discovery_witness :
  get_source_capabilities linux_host (Some ["cam0"])
  = get_source_capabilities linux_host_without_directory (Some ["cam0"]).
Proof.
  apply (named_devices_need_no_discovery linux_host
           linux_host_without_directory ["cam0"]).
  repeat constructor.
Defined.

Lemma missing_field_is_fatal_witness :
  get_source_capabilities studio_host (Some (["nope"] ++ "jpeg" :: ["cam0"]))
  = Raise KeyError.
Proof.
  apply (missing_field_is_fatal studio_host ["nope"] ["cam0"] "jpeg" "format").
  - repeat constructor.
  - vm_compute. reflexivity.
  - vm_compute. apply list_elem_of_In. cbn. tauto.
  - vm_compute. intros Hin. apply list_elem_of_In in Hin. cbn in Hin.
    decompose [or] Hin; discriminate || contradiction.
Defined.

Lemma format_without_fourcc_raises_witness :
  expand_allowed_capabilities (get_allowed_capabilities studio_host "mixed")
  = Raise AttributeError.
Proof.
  apply (format_without_fourcc_raises
           (get_allowed_capabilities studio_host "mixed")).
  - vm_compute. repeat constructor; apply list_elem_of_In; cbn; tauto.
  - apply Exists_cons. right. apply Exists_cons. left. vm_compute. reflexivity.
Defined.

Lemma framerate_list_is_a_set_witness :
  extract_fps (VList [VFraction (mkFraction 30 1); VFraction (mkFraction 15 1);
                      VFraction (mkFraction 30 1)])
  = extract_fps (VList [VFraction (mkFraction 15 1);
                        VFraction (mkFraction 30 1)]).
Proof.
  apply framerate_list_is_a_set. intros v.
  rewrite !elem_of_cons, !elem_of_nil. tauto.
Defined.

Lemma element_names_are_distinct_witness :
  NoDup (map VideoPipeline.name
           (VideoPipeline.elements
              (VideoPipeline.get_pipeline "Linux" webcam_source (Some 150000)
                 (Some "out.avi") (Some label_queue) true true
                 (Some "on_frame")))).
Proof.
  apply element_names_are_distinct. vm_compute.
  intros Hin. apply list_elem_of_In in Hin. cbn in Hin.
  decompose [or] Hin; discriminate || contradiction.
Defined.

Lemma fan_out_only_at_the_tee_witness :
  length (List.filter (fun n => bool_decide (n = "video_tee"))
            (map fst
               (VideoPipeline.links
                  (VideoPipeline.get_pipeline "Linux" webcam_source
                     (Some 150000) (Some "out.avi") None false false None))))
  = 2%nat.
Proof.
  refine (proj1 (proj2 (fan_out_only_at_the_tee "Linux" webcam_source
                          (Some 150000) (Some "out.avi") None false false
                          None _))).
  vm_compute. intros Hin. apply list_elem_of_In in Hin. cbn in Hin.
  decompose [or] Hin; discriminate || contradiction.
Defined.

Lemma default_drawing_needs_a_framerate_witness :
  CairoDraw.do_transform_ip (CairoDraw.CairoDrawBase "cairo_draw" true)
    still_buffer fresh_world
  = (Ok CairoDraw.FLOW_OK,
     Drawing.mkWorld ["Failed to create cairo surface for buffer"; "Traceback"]
                     [])
  /\ CairoDraw.acquire false still_buffer = Ok (640, 480).
Proof.
  destruct (default_drawing_needs_a_framerate "cairo_draw" true still_buffer
              fresh_world [("width", VInt 640); ("height", VInt 480)] [])
    as [Hbase Hqueue]; [reflexivity..|].
  split; [exact Hbase|]. apply Hqueue; reflexivity.
Defined.

Lemma logging_restore_restores_witness :
  LoggingHelpers.logging_restore true quiet_body two_handlers
  = (Ok tt, two_handlers).
Proof.
  apply (logging_restore_restores true quiet_body two_handlers
           (LoggingHelpers.mkRootLogger [7%nat] 10)).
  - repeat constructor; rewrite ?elem_of_cons, ?elem_of_nil; intros Hin;
      decompose [or] Hin; discriminate || contradiction.
  - reflexivity.
Defined.

Lemma logging_restore_skipped_on_exception_witness :
  LoggingHelpers.logging_restore true failing_body two_handlers
  = (Raise ValueError, LoggingHelpers.mkRootLogger [7%nat] 10).
Proof.
  apply (logging_restore_skipped_on_exception true failing_body two_handlers).
  reflexivity.
Defined.

End ExtraInstances.
